(** * MetricEvaluator: a shallow embedding of [metric_evaluator.py]

    The evaluator loads a reference table and a prediction table, checks
    that they are compatible, and computes WER, CER and BLEU per row, per
    document class, per (document class, question type) pair and over the
    whole corpus.

    The Python code calls four libraries: pandas (tables), [ast]
    (decoding the answers), jiwer (WER, CER) and sacrebleu (BLEU).  The
    table operations the code uses are written out below; the parser of
    delimited text, the literal evaluator and the three metric routines
    are the fields of the class [Libraries], and every general theorem
    holds for all of its instances.  [Sample] at the end of the
    definitions is one executable instance, used to run the model on
    concrete tables. *)

From Stdlib Require Import String Ascii List Bool Arith ZArith QArith Qcanon Lia.
From Stdlib Require Import Sorting.Sorted OrderedTypeEx.
Import ListNotations.

Set Implicit Arguments.
Open Scope nat_scope.
Open Scope string_scope.
Open Scope list_scope.

(** ** Python values, exceptions and the exception monad *)

Module Py.

(** The messages of the [ValueError]s the program can meet.  The two
    raised by [validate_data] differ only in their text. *)
Inductive message : Type :=
| columns_differ        (* "the columns of true_csv and pred_csv do not match" *)
| row_counts_differ     (* "the row counts of true_csv and pred_csv do not match" *)
| malformed_literal     (* ast.literal_eval: malformed node or string *)
| unequal_lengths       (* a constructor or a metric routine given sequences of different lengths *)
| tuple_of_labels       (* pandas from 2.0 on: "Cannot subset columns with a tuple with more than one element. Use a list instead." *)
| empty_reference.      (* a metric routine given nothing to compare with *)

Inductive exn : Type :=
| ParserError                 (* pandas.errors.ParserError *)
| EmptyDataError              (* pandas.errors.EmptyDataError *)
| KeyError (label : string)   (* a column label that is absent *)
| RowKeyError (row : nat)     (* KeyError on a row label *)
| ValueError (m : message)
| SyntaxError
| TypeError.

Inductive result (A : Type) : Type :=
| Ok (a : A)
| Raise (e : exn).
Arguments Ok {A} a.
Arguments Raise {A} e.

Definition bind {A B : Type} (r : result A) (k : A -> result B) : result B :=
  match r with
  | Ok a => k a
  | Raise e => Raise e
  end.

Definition raises {A : Type} (r : result A) : Prop := exists e, r = Raise e.
Definition returns {A : Type} (r : result A) : Prop := exists a, r = Ok a.

(** The values [ast.literal_eval] builds that the program can tell
    apart: strings, integers and lists. *)
#[warnings="-register-all"]
Inductive pyval : Type :=
| PStr (s : string)
| PInt (z : Z)
| PList (l : list pyval).

(** [len(v)] *)
Definition py_len (v : pyval) : result nat :=
  match v with
  | PStr s => Ok (String.length s)
  | PList l => Ok (List.length l)
  | PInt _ => Raise TypeError
  end.

(** The items [list.extend(v)] appends: the elements of a list, the
    one-character strings of a string; an integer is not iterable. *)
Definition py_iter (v : pyval) : result (list pyval) :=
  match v with
  | PList l => Ok l
  | PStr s => Ok (map (fun c => PStr (String c EmptyString)) (list_ascii_of_string s))
  | PInt _ => Raise TypeError
  end.

End Py.
Export Py.

Declare Scope result_scope.
Delimit Scope result_scope with result.
Notation "x <- e ;; k" := (bind e (fun x => k))
  (at level 61, e at next level, right associativity) : result_scope.
Notation "' pat <- e ;; k" := (bind e (fun x => match x with pat => k end))
  (at level 61, pat pattern, e at next level, right associativity) : result_scope.
Open Scope result_scope.

(** ** Tables *)

Module Pandas.

(** A cell of a table: text, a number or the missing value NaN.  Numbers
    are rationals in lowest terms and stand for the floats of the
    program; rounding is not modelled. *)
Inductive cell : Type :=
| CStr (s : string)
| CNum (q : Qc)
| CNaN.

Definition cell_eq_dec (a b : cell) : {a = b} + {a <> b}.
Proof.
  decide equality; [apply string_dec | apply Qc_eq_dec].
Defined.
Arguments cell_eq_dec : simpl never.

(** Elementwise [==] of pandas: NaN equals nothing, itself included. *)
Definition cell_eqb (a b : cell) : bool :=
  match a, b with
  | CNaN, _ | _, CNaN => false
  | _, _ => if cell_eq_dec a b then true else false
  end.

Definition isna (c : cell) : bool :=
  match c with CNaN => true | _ => false end.

(** A DataFrame with the default index 0..n-1: the column labels and the
    rows, each row holding one cell per column.  [read_csv] makes the
    labels of a table distinct. *)
Record DataFrame : Type := {
  columns : list string;
  rows : list (list cell)
}.

(** [len(df)] *)
Definition len (df : DataFrame) : nat := List.length (rows df).

Fixpoint index_of (label : string) (labels : list string) : option nat :=
  match labels with
  | [] => None
  | l :: rest =>
      if String.eqb label l then Some 0
      else option_map S (index_of label rest)
  end.

(** [df[label]]: the column as a sequence of cells.  The label is taken
    to name one column; where a table has it twice pandas hands back both
    columns, which the properties below exclude by their hypotheses. *)
Definition getitem (df : DataFrame) (label : string) : result (list cell) :=
  match index_of label (columns df) with
  | Some i => Ok (map (fun r => nth i r CNaN) (rows df))
  | None => Raise (KeyError label)
  end.

(** [series[row]] on the default index. *)
Definition at_row (series : list cell) (row : nat) : result cell :=
  match nth_error series row with
  | Some c => Ok c
  | None => Raise (RowKeyError row)
  end.

(** The entries of [l] whose label is not [label]. *)
Fixpoint without {A : Type} (label : string) (labels : list string) (l : list A)
  : list A :=
  match labels, l with
  | lb :: labels', x :: l' =>
      if String.eqb label lb then without label labels' l'
      else x :: without label labels' l'
  | _, _ => []
  end.

(** [df.drop(columns=label)] *)
Definition drop (df : DataFrame) (label : string) : result DataFrame :=
  if existsb (String.eqb label) (columns df) then
    Ok {| columns := without label (columns df) (columns df);
          rows := map (without label (columns df)) (rows df) |}
  else Raise (KeyError label).

(** [pd.DataFrame({l1: c1, ...})]: the columns must be equally long. *)
Definition from_columns (n : nat) (cols : list (string * list cell))
  : result DataFrame :=
  if forallb (fun c => Nat.eqb (List.length (snd c)) n) cols then
    Ok {| columns := map fst cols;
          rows := map (fun i => map (fun c => nth i (snd c) CNaN) cols) (seq 0 n) |}
  else Raise (ValueError unequal_lengths).

(** [pd.concat([a, b], axis=1)] on default indexes: rows are joined by
    position, and the shorter table is padded with NaN. *)
Fixpoint concat_rows (wa wb : nat) (ra rb : list (list cell)) : list (list cell) :=
  match ra with
  | [] => map (fun y => repeat CNaN wa ++ y) rb
  | x :: ra' =>
      match rb with
      | [] => (x ++ repeat CNaN wb) :: concat_rows wa wb ra' []
      | y :: rb' => (x ++ y) :: concat_rows wa wb ra' rb'
      end
  end.

Definition concat (a b : DataFrame) : DataFrame :=
  {| columns := columns a ++ columns b;
     rows := concat_rows (List.length (columns a)) (List.length (columns b))
               (rows a) (rows b) |}.

End Pandas.
Export Pandas.

(** ** The libraries behind the evaluator *)

(** The two arguments of [sacrebleu.corpus_bleu], under the names of its
    signature [corpus_bleu(hypotheses, references, ...)]: the system
    output first, the list of reference streams second.  All other
    parameters keep their defaults. *)
Record bleu_call : Type := {
  hypotheses : pyval;
  references : pyval
}.

Class Libraries : Type := {
  (** [pd.read_csv(file, sep=sep)]; [file] is the text stored at the path. *)
  read_csv (file : string) (sep : ascii) : result DataFrame;
  (** [ast.literal_eval(text)] on a string. *)
  literal_eval (text : string) : result pyval;
  (** [jiwer.wer(reference, hypothesis)] and [jiwer.cer(reference, hypothesis)]. *)
  wer (reference hypothesis : pyval) : result Qc;
  cer (reference hypothesis : pyval) : result Qc;
  (** [sacrebleu.corpus_bleu(hypotheses, references).score] *)
  corpus_bleu (call : bleu_call) : result Qc
}.

Definition comma : ascii := ","%char.
Definition tab : ascii := "009"%char.

(** ** The evaluator *)

(** The object state: the two loaded tables. *)
Record MetricEvaluator : Type := {
  true_csv : DataFrame;
  pred_csv : DataFrame
}.

(** The dictionary [calculate_metrics_general] returns. *)
Record general_metrics : Type := {
  wer_error : Qc;
  cer_error : Qc;
  bleu_score : Qc
}.

Section Evaluator.

Context {L : Libraries}.

(** [read_file], together with the separators it tried, in order. *)
Definition read_file_attempts (file_path : string) : list ascii * result DataFrame :=
  match read_csv file_path comma with
  | Raise ParserError => ([comma; tab], read_csv file_path tab)
  | r => ([comma], r)
  end.

Definition read_file (file_path : string) : result DataFrame :=
  snd (read_file_attempts file_path).

Definition validate_data (self : MetricEvaluator) : result unit :=
  if list_eq_dec string_dec (columns (true_csv self)) (columns (pred_csv self)) then
    if Nat.eqb (len (true_csv self)) (len (pred_csv self)) then Ok tt
    else Raise (ValueError row_counts_differ)
  else Raise (ValueError columns_differ).

(** [MetricEvaluator(true_file, prediction_file)] *)
Definition init (true_file prediction_file : string) : result MetricEvaluator :=
  t <- read_file true_file ;;
  p <- read_file prediction_file ;;
  let self := {| true_csv := t; pred_csv := p |} in
  _ <- validate_data self ;;
  Ok self.

(** [ast.literal_eval] applied to a cell: anything but text is a
    malformed node. *)
Definition literal_eval_cell (c : cell) : result pyval :=
  match c with
  | CStr text => literal_eval text
  | _ => Raise (ValueError malformed_literal)
  end.

(** [ast.literal_eval(df['answers'][row])] *)
Definition answers_at (df : DataFrame) (row : nat) : result pyval :=
  col <- getitem df "answers" ;;
  c <- at_row col row ;;
  literal_eval_cell c.

(** The call [sacrebleu.corpus_bleu(Y_true, [y_pred])] of the program:
    the first positional argument is [hypotheses], the second is
    [references]. *)
Definition bleu_arguments (Y_true y_pred : pyval) : bleu_call :=
  {| hypotheses := Y_true; references := PList [y_pred] |}.

(** The three metrics of a pair of decoded answers, as both
    [calculate_metrics_by_id] and [calculate_metrics_general] compute
    them. *)
Definition score (Y_true y_pred : pyval) : result general_metrics :=
  w <- wer Y_true y_pred ;;
  c <- cer Y_true y_pred ;;
  b <- corpus_bleu (bleu_arguments Y_true y_pred) ;;
  Ok {| wer_error := w; cer_error := c; bleu_score := b |}.

(** The body of the loop of [calculate_metrics_by_id]. *)
Definition by_id_row (self : MetricEvaluator) (row : nat) : result general_metrics :=
  Y_true <- answers_at (true_csv self) row ;;
  y_pred <- answers_at (pred_csv self) row ;;
  n_true <- py_len Y_true ;;
  n_pred <- py_len y_pred ;;
  let _ := negb (Nat.eqb n_true n_pred) in   (* if ...: pass *)
  score Y_true y_pred.

(** The loop, appending to the three lists. *)
Fixpoint by_id_loop (self : MetricEvaluator) (todo : list nat)
    (wer_error_list cer_error_list bleu_score_list : list Qc)
  : result (list Qc * list Qc * list Qc) :=
  match todo with
  | [] => Ok (wer_error_list, cer_error_list, bleu_score_list)
  | row :: rest =>
      m <- by_id_row self row ;;
      by_id_loop self rest
        (wer_error_list ++ [wer_error m])
        (cer_error_list ++ [cer_error m])
        (bleu_score_list ++ [bleu_score m])
  end.

Definition calculate_metrics_by_id (self : MetricEvaluator) : result DataFrame :=
  result_df <- drop (true_csv self) "answear_bbox" ;;
  '(wer_error_list, cer_error_list, bleu_score_list) <-
     by_id_loop self (seq 0 (len (true_csv self))) [] [] [] ;;
  pred_answers <- getitem (pred_csv self) "answers" ;;
  metrics <- from_columns (List.length pred_answers)
    [ ("pred_answers", pred_answers);
      ("wer_error", map CNum wer_error_list);
      ("cer_error", map CNum cer_error_list);
      ("bleu_score", map CNum bleu_score_list) ] ;;
  Ok (concat result_df metrics).

(** The loop of [calculate_metrics_general], extending the two lists. *)
Fixpoint general_loop (self : MetricEvaluator) (todo : list nat)
    (true_answers pred_answers : list pyval)
  : result (list pyval * list pyval) :=
  match todo with
  | [] => Ok (true_answers, pred_answers)
  | row :: rest =>
      t <- answers_at (true_csv self) row ;;
      t_items <- py_iter t ;;
      p <- answers_at (pred_csv self) row ;;
      p_items <- py_iter p ;;
      general_loop self rest (true_answers ++ t_items) (pred_answers ++ p_items)
  end.

Definition calculate_metrics_general (self : MetricEvaluator) : result general_metrics :=
  '(true_answers, pred_answers) <-
     general_loop self (seq 0 (len (true_csv self))) [] [] ;;
  score (PList true_answers) (PList pred_answers).

End Evaluator.

(** ** Aggregation *)

Module Aggregate.

(** [Series.mean()]: missing values are skipped, a series without numbers
    has mean NaN, and text cannot be averaged. *)
Definition is_text (c : cell) : bool :=
  match c with CStr _ => true | _ => false end.

Fixpoint numbers (s : list cell) : list Qc :=
  match s with
  | [] => []
  | CNum q :: rest => q :: numbers rest
  | _ :: rest => numbers rest
  end.

Definition total (xs : list Qc) : Qc := fold_right Qcplus (Q2Qc 0) xs.

Definition average (xs : list Qc) : Qc :=
  (total xs / Q2Qc (inject_Z (Z.of_nat (List.length xs))))%Qc.

Definition mean (s : list cell) : result cell :=
  if existsb is_text s then Raise TypeError
  else match numbers s with
       | [] => Ok CNaN
       | xs => Ok (CNum (average xs))
       end.

(** The values of a series in the order of their first occurrence. *)
Fixpoint uniq (s : list cell) : list cell :=
  match s with
  | [] => []
  | x :: rest => x :: remove cell_eq_dec x (uniq rest)
  end.

Definition count (s : list cell) (x : cell) : nat := count_occ cell_eq_dec s x.

(** Insertion that keeps [x] ahead of the values that are not more
    frequent than it. *)
Fixpoint insert_by_count (s : list cell) (x : cell) (sorted : list cell) : list cell :=
  match sorted with
  | [] => [x]
  | y :: rest =>
      if Nat.leb (count s y) (count s x) then x :: y :: rest
      else y :: insert_by_count s x rest
  end.

(** Modelled from the spec: the order of [Series.value_counts().index],
    which pandas decides and the repository does not.  The spec gives it
    as the distinct values present (missing values are not counted),
    sorted by descending row count, ties broken by first-seen order. *)
Definition value_counts_index (s : list cell) : list cell :=
  let present := filter (fun c => negb (isna c)) s in
  fold_right (insert_by_count present) [] (uniq present).

(** [df[df[label] == value]] *)
Definition where_eq (df : DataFrame) (label : string) (value : cell) : result DataFrame :=
  col <- getitem df label ;;
  let mask := map (fun c => cell_eqb c value) col in
  Ok {| columns := columns df;
        rows := map fst (filter snd (combine (rows df) mask)) |}.

(** [df[df['doc_class'] == doc_type][metric].mean()] *)
Definition class_mean (df : DataFrame) (doc_type : cell) (metric : string) : result cell :=
  sub <- where_eq df "doc_class" doc_type ;;
  col <- getitem sub metric ;;
  mean col.

Fixpoint by_doc_type_loop (df : DataFrame) (doc_types : list cell)
    (wer_error_list cer_error_list bleu_score_list : list cell)
  : result (list cell * list cell * list cell) :=
  match doc_types with
  | [] => Ok (wer_error_list, cer_error_list, bleu_score_list)
  | doc_type :: rest =>
      w <- class_mean df doc_type "wer_error" ;;
      c <- class_mean df doc_type "cer_error" ;;
      b <- class_mean df doc_type "bleu_score" ;;
      by_doc_type_loop df rest
        (wer_error_list ++ [w]) (cer_error_list ++ [c]) (bleu_score_list ++ [b])
  end.

Definition calculate_metrics_by_doc_type (df : DataFrame) : result DataFrame :=
  doc_class <- getitem df "doc_class" ;;
  let doc_types := value_counts_index doc_class in
  '(wer_error_list, cer_error_list, bleu_score_list) <-
     by_doc_type_loop df doc_types [] [] [] ;;
  from_columns (List.length doc_types)
    [ ("doc_class", doc_types);
      ("wer_error", wer_error_list);
      ("cer_error", cer_error_list);
      ("bleu_score", bleu_score_list) ].

(** The order in which [groupby] sorts its keys: numbers before text,
    numbers by value, text by code point. *)
Definition cell_compare (a b : cell) : comparison :=
  match a, b with
  | CNum x, CNum y => Qccompare x y
  | CNum _, _ => Lt
  | CStr _, CNum _ => Gt
  | CStr s, CStr t => String.compare s t
  | CStr _, CNaN => Lt
  | CNaN, CNaN => Eq
  | CNaN, _ => Gt
  end.

Definition key : Type := cell * cell.

Definition key_compare (a b : key) : comparison :=
  match cell_compare (fst a) (fst b) with
  | Eq => cell_compare (snd a) (snd b)
  | c => c
  end.

Fixpoint insert_key (k : key) (sorted : list key) : list key :=
  match sorted with
  | [] => [k]
  | h :: rest =>
      match key_compare k h with
      | Lt => k :: h :: rest
      | Eq => h :: rest
      | Gt => h :: insert_key k rest
      end
  end.

Definition has_na (k : key) : bool := isna (fst k) || isna (snd k).

(** The group keys of [df.groupby([a, b])]: rows with a missing key are
    left out, and the keys come sorted and without repetition. *)
Definition group_keys (a b : list cell) : list key :=
  fold_right insert_key [] (filter (fun k => negb (has_na k)) (combine a b)).

Definition key_eqb (k k' : key) : bool :=
  cell_eqb (fst k) (fst k') && cell_eqb (snd k) (snd k').

(** The values of [metric] on the rows of a group. *)
Definition group_values (keys : list key) (metric : list cell) (k : key) : list cell :=
  map snd (filter (fun kv => key_eqb (fst kv) k) (combine keys metric)).

(** The pandas the program runs on.  The repository names no version,
    and the two lines of versions read line 121 differently. *)
Inductive pandas_version : Type :=
| before_2_0
| since_2_0.

(** Whether a column holds text, which makes its dtype [object]. *)
Definition holds_text (col : list cell) : bool := existsb is_text col.

(** The mean of the numbers of a series: missing values are skipped, and
    a series without numbers has mean NaN. *)
Definition mean_of_numbers (s : list cell) : cell :=
  match numbers s with
  | [] => CNaN
  | xs => CNum (average xs)
  end.

(** [df.groupby(['doc_class', 'question_type'])['wer_error', 'cer_error',
    'bleu_score'].mean().reset_index()].

    [groupby] looks up the two key columns.  The subscript that follows
    has three labels without list brackets, that is a tuple.  pandas from
    2.0 on refuses it with a [ValueError], whatever the table holds.
    pandas before 2.0 reads it, with a warning, as the list of the three
    columns; there [mean] averages the numeric columns of each group and
    leaves out the columns that hold text, and [reset_index] puts the
    keys in front. *)
Definition group_by_doc_question (pandas : pandas_version) (df : DataFrame)
  : result DataFrame :=
  doc_class <- getitem df "doc_class" ;;
  question_type <- getitem df "question_type" ;;
  match pandas with
  | since_2_0 => Raise (ValueError tuple_of_labels)
  | before_2_0 =>
      w <- getitem df "wer_error" ;;
      c <- getitem df "cer_error" ;;
      b <- getitem df "bleu_score" ;;
      let selected := [("wer_error", w); ("cer_error", c); ("bleu_score", b)] in
      let averaged := filter (fun col => negb (holds_text (snd col))) selected in
      let keys := combine doc_class question_type in
      Ok {| columns := ["doc_class"; "question_type"] ++ map fst averaged;
            rows := map (fun k =>
                      [fst k; snd k]
                      ++ map (fun col => mean_of_numbers (group_values keys (snd col) k))
                             averaged)
                    (group_keys doc_class question_type) |}
  end.

End Aggregate.
Export Aggregate.

(** ** An executable instance of the libraries

    [Sample.libraries] runs the model on concrete files.  Each routine
    covers a fragment of the library it stands for, given in its comment;
    the examples below stay inside these fragments, and no general
    theorem depends on this instance. *)

Module Sample.

Definition quote : ascii := "034"%char.
Definition apostrophe : ascii := "039"%char.
Definition newline : ascii := "010"%char.
Definition space : ascii := " "%char.

(** *** Delimited text

    The tokenizer of pandas' C parser with its default dialect: a field
    that starts with a double quote runs to the closing quote, a doubled
    quote inside it stands for one quote, and empty lines are skipped.
    Lines end with a line feed, and every quoted field is closed. *)
Inductive tokenizer_state : Type :=
| START_FIELD | IN_FIELD | IN_QUOTED_FIELD | QUOTE_IN_QUOTED_FIELD.

Definition end_field (field : list ascii) (line : list string) : list string :=
  line ++ [string_of_list_ascii (rev field)].

Fixpoint tokenize (sep : ascii) (st : tokenizer_state) (field : list ascii)
    (line : list string) (text : list ascii) : list (list string) :=
  match text with
  | [] =>
      match st, field, line with
      | START_FIELD, [], [] => []
      | _, _, _ => [end_field field line]
      end
  | c :: rest =>
      match st with
      | START_FIELD =>
          if Ascii.eqb c newline then
            match line with
            | [] => tokenize sep START_FIELD [] [] rest
            | _ => end_field field line :: tokenize sep START_FIELD [] [] rest
            end
          else if Ascii.eqb c quote then tokenize sep IN_QUOTED_FIELD field line rest
          else if Ascii.eqb c sep then
            tokenize sep START_FIELD [] (end_field field line) rest
          else tokenize sep IN_FIELD (c :: field) line rest
      | IN_FIELD =>
          if Ascii.eqb c newline then
            end_field field line :: tokenize sep START_FIELD [] [] rest
          else if Ascii.eqb c sep then
            tokenize sep START_FIELD [] (end_field field line) rest
          else tokenize sep IN_FIELD (c :: field) line rest
      | IN_QUOTED_FIELD =>
          if Ascii.eqb c quote then tokenize sep QUOTE_IN_QUOTED_FIELD field line rest
          else tokenize sep IN_QUOTED_FIELD (c :: field) line rest
      | QUOTE_IN_QUOTED_FIELD =>
          if Ascii.eqb c quote then tokenize sep IN_QUOTED_FIELD (c :: field) line rest
          else if Ascii.eqb c newline then
            end_field field line :: tokenize sep START_FIELD [] [] rest
          else if Ascii.eqb c sep then
            tokenize sep START_FIELD [] (end_field field line) rest
          else tokenize sep IN_FIELD (c :: field) line rest
      end
  end.

Definition is_digit (c : ascii) : bool :=
  let n := nat_of_ascii c in Nat.leb 48 n && Nat.leb n 57.

Definition digits_value (ds : list ascii) : Z :=
  fold_left (fun acc c => (10 * acc + Z.of_nat (nat_of_ascii c - 48))%Z) ds 0%Z.

(** A decimal integer, as column type inference reads it. *)
Definition integer_of (s : string) : option Z :=
  match list_ascii_of_string s with
  | [] => None
  | "-"%char :: ((_ :: _) as ds) =>
      if forallb is_digit ds then Some (- digits_value ds)%Z else None
  | ds => if forallb is_digit ds then Some (digits_value ds) else None
  end.

Definition is_missing (s : string) : bool := String.eqb s EmptyString.

(** Type inference on a column: a column of integers (and empty fields)
    becomes numeric, any other column stays text; an empty field is NaN. *)
Definition all_integers (col : list string) : bool :=
  forallb (fun s => is_missing s || match integer_of s with Some _ => true | None => false end) col.

Definition to_cell (numeric : bool) (s : string) : cell :=
  if is_missing s then CNaN
  else if numeric then
    match integer_of s with
    | Some z => CNum (Q2Qc (inject_Z z))
    | None => CStr s
    end
  else CStr s.

Definition field_at (i : nat) (line : list string) : string := nth i line EmptyString.

(** [pd.read_csv(file, sep=sep)] on files in this fragment: the first
    line is the header and its labels are distinct and not empty; a
    record shorter than the header is padded with missing values; a
    record longer than the header is a [ParserError]; cells are integers
    or text.  (pandas treats a longer FIRST record as carrying index
    columns, infers floats and booleans, and knows more spellings of a
    missing value: such files are outside the fragment.) *)
Definition parse_csv (file : string) (sep : ascii) : result DataFrame :=
  match tokenize sep START_FIELD [] [] (list_ascii_of_string file) with
  | [] => Raise EmptyDataError
  | header :: records =>
      let width := List.length header in
      if existsb (fun r => Nat.ltb width (List.length r)) records then Raise ParserError
      else
        let numeric :=
          map (fun i => all_integers (map (field_at i) records)
                        && existsb (fun r => negb (is_missing (field_at i r))) records)
              (seq 0 width) in
        Ok {| columns := header;
              rows := map (fun r =>
                        map (fun i => to_cell (nth i numeric false) (field_at i r))
                            (seq 0 width)) records |}
  end.

(** *** Literals

    [ast.literal_eval] on the literals built from decimal integers,
    strings in single or double quotes without backslash, and lists of
    such literals, with blanks between the tokens.  On any other text
    the instance raises [SyntaxError]. *)
Definition is_blank (c : ascii) : bool := Ascii.eqb c space || Ascii.eqb c tab.

Fixpoint skip_blanks (text : list ascii) : list ascii :=
  match text with
  | c :: rest => if is_blank c then skip_blanks rest else text
  | [] => []
  end.

(** The characters up to the closing [q]. *)
Fixpoint string_body (q : ascii) (text : list ascii) : option (list ascii * list ascii) :=
  match text with
  | [] => None
  | c :: rest =>
      if Ascii.eqb c q then Some ([], rest)
      else if Ascii.eqb c "092"%char || Ascii.eqb c newline then None
      else match string_body q rest with
           | Some (body, rest') => Some (c :: body, rest')
           | None => None
           end
  end.

Fixpoint span_digits (text : list ascii) : list ascii * list ascii :=
  match text with
  | c :: rest =>
      if is_digit c then let (ds, rest') := span_digits rest in (c :: ds, rest')
      else ([], text)
  | [] => ([], [])
  end.

(** Python refuses a leading zero on a number that is not zero. *)
Definition well_formed_digits (ds : list ascii) : bool :=
  match ds with
  | [] => false
  | "0"%char :: rest => forallb (Ascii.eqb "0"%char) rest
  | _ => true
  end.

Definition number (negative : bool) (text : list ascii) : option (pyval * list ascii) :=
  let (ds, rest) := span_digits text in
  if well_formed_digits ds then
    Some (PInt (if negative then - digits_value ds else digits_value ds)%Z, rest)
  else None.

Fixpoint value (fuel : nat) (text : list ascii) : option (pyval * list ascii) :=
  match fuel with
  | O => None
  | S fuel' =>
      match skip_blanks text with
      | [] => None
      | c :: rest =>
          if Ascii.eqb c "["%char then
            match items fuel' (skip_blanks rest) with
            | Some (vs, rest') => Some (PList vs, rest')
            | None => None
            end
          else if Ascii.eqb c apostrophe || Ascii.eqb c quote then
            match string_body c rest with
            | Some (body, rest') => Some (PStr (string_of_list_ascii body), rest')
            | None => None
            end
          else if Ascii.eqb c "-"%char then number true (skip_blanks rest)
          else number false (c :: rest)
      end
  end
with items (fuel : nat) (text : list ascii) : option (list pyval * list ascii) :=
  match fuel with
  | O => None
  | S fuel' =>
      match text with
      | "]"%char :: rest => Some ([], rest)
      | _ =>
          match value fuel' text with
          | None => None
          | Some (v, rest) =>
              match skip_blanks rest with
              | ","%char :: rest' =>
                  match items fuel' (skip_blanks rest') with
                  | Some (vs, rest'') => Some (v :: vs, rest'')
                  | None => None
                  end
              | "]"%char :: rest' => Some ([v], rest')
              | _ => None
              end
          end
      end
  end.

Definition parse_literal (text : string) : result pyval :=
  let chars := list_ascii_of_string text in
  match value (S (List.length chars)) chars with
  | Some (v, rest) =>
      match skip_blanks rest with
      | [] => Ok v
      | _ => Raise SyntaxError
      end
  | None => Raise SyntaxError
  end.

(** *** Metrics *)

(** The sentences of an argument of a metric routine: a string is one
    sentence, a list must hold strings. *)
Fixpoint strings (l : list pyval) : result (list string) :=
  match l with
  | [] => Ok []
  | PStr s :: rest => ss <- strings rest ;; Ok (s :: ss)
  | _ :: _ => Raise TypeError
  end.

Definition sentences (v : pyval) : result (list string) :=
  match v with
  | PStr s => Ok [s]
  | PList l => strings l
  | PInt _ => Raise TypeError
  end.

(** The words of a sentence: the maximal runs without a space. *)
Fixpoint split_words (text : list ascii) (word : list ascii) : list (list ascii) :=
  match text with
  | [] => match word with [] => [] | _ => [rev word] end
  | c :: rest =>
      if Ascii.eqb c space then
        match word with
        | [] => split_words rest []
        | _ => rev word :: split_words rest []
        end
      else split_words rest (c :: word)
  end.

Definition words (s : string) : list (list ascii) :=
  split_words (list_ascii_of_string s) [].

Fixpoint strip_left (text : list ascii) : list ascii :=
  match text with
  | c :: rest => if Ascii.eqb c space then strip_left rest else text
  | [] => []
  end.

(** The characters of a sentence without the spaces around it. *)
Definition characters (s : string) : list ascii :=
  rev (strip_left (rev (strip_left (list_ascii_of_string s)))).

Section Levenshtein.

Variable A : Type.
Variable eqb : A -> A -> bool.

(** The least number of substitutions, deletions and insertions that
    turn [a] into [b]. *)
Fixpoint edit_distance (a b : list A) : nat :=
  match a with
  | [] => List.length b
  | x :: a' =>
      (fix against (b : list A) : nat :=
         match b with
         | [] => List.length a
         | y :: b' =>
             if eqb x y then edit_distance a' b'
             else S (Nat.min (edit_distance a' b')
                             (Nat.min (edit_distance a' b) (against b')))
         end) b
  end.

End Levenshtein.

Definition ratio (num den : nat) : Qc :=
  Q2Qc (Z.of_nat num # Pos.of_nat den).

(** The error rate of jiwer over units (words or characters): the
    edits summed over the sentence pairs, divided by the number of
    reference units.  The two arguments must have equally many
    sentences, and no reference sentence may be empty. *)
Definition error_rate (A : Type) (eqb : A -> A -> bool) (units : string -> list A)
    (reference hypothesis : pyval) : result Qc :=
  refs <- sentences reference ;;
  hyps <- sentences hypothesis ;;
  if negb (Nat.eqb (List.length refs) (List.length hyps)) then
    Raise (ValueError unequal_lengths)
  else if existsb (fun r => Nat.eqb (List.length (units r)) 0) refs
          || Nat.eqb (List.length refs) 0 then
    Raise (ValueError empty_reference)
  else
    let edits := map (fun rh => edit_distance eqb (units (fst rh)) (units (snd rh)))
                     (combine refs hyps) in
    Ok (ratio (list_sum edits) (list_sum (map (fun r => List.length (units r)) refs))).

Definition word_eqb (u v : list ascii) : bool :=
  if list_eq_dec ascii_dec u v then true else false.

Definition jiwer_wer : pyval -> pyval -> result Qc := error_rate word_eqb words.
Definition jiwer_cer : pyval -> pyval -> result Qc := error_rate Ascii.eqb characters.

(** How many of the words of [hyp] are found in [ref], each word of
    [ref] serving once. *)
Fixpoint remove_first (w : list ascii) (l : list (list ascii)) : option (list (list ascii)) :=
  match l with
  | [] => None
  | x :: rest =>
      if word_eqb w x then Some rest
      else option_map (cons x) (remove_first w rest)
  end.

Fixpoint matches (hyp ref : list (list ascii)) : nat :=
  match hyp with
  | [] => 0
  | w :: rest =>
      match remove_first w ref with
      | Some ref' => S (matches rest ref')
      | None => matches rest ref
      end
  end.

(** A rational stand-in for the BLEU score, which is not rational: one
    hundred times the clipped unigram precision of the hypotheses
    against the single reference stream.  Like sacrebleu it wants a list
    of hypotheses and one reference stream of the same length. *)
Definition unigram_bleu (call : bleu_call) : result Qc :=
  match hypotheses call, references call with
  | PList hyps, PList [PList stream] =>
      hs <- strings hyps ;;
      rs <- strings stream ;;
      if negb (Nat.eqb (List.length hs) (List.length rs)) then
        Raise (ValueError unequal_lengths)
      else
        let pairs := combine hs rs in
        let hit := list_sum (map (fun hr => matches (words (fst hr)) (words (snd hr))) pairs) in
        let all := list_sum (map (fun h => List.length (words h)) hs) in
        if Nat.eqb all 0 then Ok (Q2Qc 0)
        else Ok (ratio (100 * hit) all)
  | _, _ => Raise TypeError
  end.

#[export] Instance libraries : Libraries := {|
  read_csv := parse_csv;
  literal_eval := parse_literal;
  wer := jiwer_wer;
  cer := jiwer_cer;
  corpus_bleu := unigram_bleu
|}.

End Sample.

(** ** The vocabulary of the properties *)

Section Vocabulary.

Context {L : Libraries}.

(** The answers cell of a row, [df['answers'][row]]. *)
Definition answer_cell (df : DataFrame) (row : nat) : result cell :=
  col <- getitem df "answers" ;; at_row col row.

(** The last [n] cells of a row of a table. *)
Definition last_cells (n : nat) (df : DataFrame) (row : nat) : option (list cell) :=
  option_map (fun r => skipn (List.length r - n) r) (nth_error (rows df) row).

(** The three metric cells that end a row of the per-row table. *)
Definition metric_cells (m : general_metrics) : list cell :=
  [CNum (wer_error m); CNum (cer_error m); CNum (bleu_score m)].

(** The loop body returns [ms], row by row, on the rows [todo]. *)
Definition row_results (self : MetricEvaluator) (todo : list nat)
    (ms : list general_metrics) : Prop :=
  Forall2 (fun row m => by_id_row self row = Ok m) todo ms.

(** The table [calculate_metrics_by_id] builds from the reference table
    [t], the answers column [pcol] of the predictions and the row
    results [ms]. *)
Definition per_row_table (t : DataFrame) (pcol : list cell) (ms : list general_metrics)
  : DataFrame :=
  concat
    {| columns := filter (fun c => negb (String.eqb "answear_bbox" c)) (columns t);
       rows := map (without "answear_bbox" (columns t)) (rows t) |}
    {| columns := ["pred_answers"; "wer_error"; "cer_error"; "bleu_score"];
       rows := map (fun i => [nth i pcol CNaN;
                              nth i (map CNum (map wer_error ms)) CNaN;
                              nth i (map CNum (map cer_error ms)) CNaN;
                              nth i (map CNum (map bleu_score ms)) CNaN])
                   (seq 0 (List.length pcol)) |}.

(** The position of the first occurrence of [x] in [s]. *)
Fixpoint first_index (x : cell) (s : list cell) : nat :=
  match s with
  | [] => 0
  | y :: rest => if cell_eq_dec x y then 0 else S (first_index x rest)
  end.

(** [a] comes before [b] in the order of the claim: [a] is on more rows
    than [b], or on as many and seen first. *)
Definition more_frequent_or_earlier (s : list cell) (a b : cell) : Prop :=
  count s b < count s a
  \/ (count s a = count s b /\ first_index a s < first_index b s).

(** The values of a metric on the rows of class [c]. *)
Definition class_values (doc_class : list cell) (xs : list Qc) (c : cell) : list Qc :=
  map snd (filter (fun p => cell_eqb (fst p) c) (combine doc_class xs)).

(** The order of the rows of [group_by_doc_question]: lexicographic on
    the pair (document class, question type). *)
Definition key_lt (a b : key) : Prop := key_compare a b = Lt.

(** The values of a metric on the rows whose key is [k]. *)
Definition key_values (doc_class question_type : list cell) (xs : list Qc) (k : key)
  : list Qc :=
  map snd (filter (fun kv => key_eqb (fst kv) k)
                  (combine (combine doc_class question_type) xs)).

(** The sentence of the specification on [calculate_metrics_by_id], as
    it is worded: a pair that passes validation and whose answers all
    decode gets a table of as many rows, with the columns of the
    reference table less [answear_bbox] and the four derived ones. *)
Definition decodable_pair_gets_table (self : MetricEvaluator) : Prop :=
  validate_data self = Ok tt ->
  (forall row, row < len (true_csv self) ->
     returns (answers_at (true_csv self) row)
     /\ returns (answers_at (pred_csv self) row)) ->
  exists out,
    calculate_metrics_by_id self = Ok out
    /\ len out = len (true_csv self)
    /\ columns out
       = filter (fun c => negb (String.eqb "answear_bbox" c)) (columns (true_csv self))
         ++ ["pred_answers"; "wer_error"; "cer_error"; "bleu_score"].

(** [text] is the serialization of the sequence of strings [xs]. *)
Definition serializes (text : string) (xs : list string) : Prop :=
  literal_eval text = Ok (PList (map PStr xs)).

(** The sentence of the specification on decoding, as it is worded:
    decoding a field fails exactly when its text is not a valid
    serialized string sequence. *)
Definition decoding_fails_off_sequences (text : string) : Prop :=
  raises (literal_eval_cell (CStr text)) <-> ~ exists xs, serializes text xs.

(** The sentence of the specification on the BLEU call, as it is
    worded: the reference sequence is in the references role and the
    predicted sequence in the hypothesis role. *)
Definition reference_in_references_role (Y_true y_pred : pyval) : Prop :=
  references (bleu_arguments Y_true y_pred) = PList [Y_true]
  /\ hypotheses (bleu_arguments Y_true y_pred) = y_pred.

End Vocabulary.

(** ** Sample data *)

Module Examples.

Import Sample.

Definition line (sep : ascii) (fields : list string) : string :=
  (String.concat (String sep EmptyString) fields ++ String newline EmptyString)%string.

Definition quoted (field : string) : string :=
  (String quote EmptyString ++ field ++ String quote EmptyString)%string.

Definition header : list string :=
  ["id"; "doc_class"; "question_type"; "answers"; "answear_bbox"].

(** A reference file and a prediction file of three rows, comma-delimited. *)
Definition true_file : string :=
  (line comma header
   ++ line comma ["q1"; "invoice"; "total"; quoted "['cat', 'dog']"; "b1"]
   ++ line comma ["q2"; "receipt"; "date"; "['hello world']"; "b2"]
   ++ line comma ["q3"; "invoice"; "date"; "['a b c']"; "b3"])%string.

Definition prediction_file : string :=
  (line comma header
   ++ line comma ["q1"; "invoice"; "total"; quoted "['cat', 'dog']"; "b1"]
   ++ line comma ["q2"; "receipt"; "date"; "['hello word']"; "b2"]
   ++ line comma ["q3"; "invoice"; "date"; "['a b d']"; "b3"])%string.

Definition true_table : DataFrame :=
  {| columns := header;
     rows := [ [CStr "q1"; CStr "invoice"; CStr "total"; CStr "['cat', 'dog']"; CStr "b1"];
               [CStr "q2"; CStr "receipt"; CStr "date"; CStr "['hello world']"; CStr "b2"];
               [CStr "q3"; CStr "invoice"; CStr "date"; CStr "['a b c']"; CStr "b3"] ] |}.

Definition prediction_table : DataFrame :=
  {| columns := header;
     rows := [ [CStr "q1"; CStr "invoice"; CStr "total"; CStr "['cat', 'dog']"; CStr "b1"];
               [CStr "q2"; CStr "receipt"; CStr "date"; CStr "['hello word']"; CStr "b2"];
               [CStr "q3"; CStr "invoice"; CStr "date"; CStr "['a b d']"; CStr "b3"] ] |}.

Definition evaluator : MetricEvaluator :=
  {| true_csv := true_table; pred_csv := prediction_table |}.

(** Another pair, with the answers of [evaluator] on row 1 and nothing
    else in common with it. *)
Definition other_evaluator : MetricEvaluator :=
  {| true_csv :=
       {| columns := ["answers"; "answear_bbox"; "page"];
          rows := [ [CStr "['one two']"; CStr "c1"; CNaN];
                    [CStr "['hello world']"; CStr "c2"; CStr "p2"] ] |};
     pred_csv :=
       {| columns := ["answers"; "answear_bbox"; "page"];
          rows := [ [CStr "['one']"; CStr "c1"; CNaN];
                    [CStr "['hello word']"; CStr "c2"; CStr "p2"] ] |} |}.

(** A pair of one row. *)
Definition single : MetricEvaluator :=
  {| true_csv := {| columns := ["answers"; "answear_bbox"];
                    rows := [[CStr "['hello world', 'cat']"; CStr "b"]] |};
     pred_csv := {| columns := ["answers"; "answear_bbox"];
                    rows := [[CStr "['hello word', 'cat']"; CStr "b"]] |} |}.

(** A pair without the [answear_bbox] column. *)
Definition no_bbox : MetricEvaluator :=
  {| true_csv := {| columns := ["id"; "answers"]; rows := [[CStr "q1"; CStr "['cat']"]] |};
     pred_csv := {| columns := ["id"; "answers"]; rows := [[CStr "q1"; CStr "['cat']"]] |} |}.

(** A pair whose reference answers on row 1 are not a literal. *)
Definition undecodable : MetricEvaluator :=
  {| true_csv := {| columns := ["answers"; "answear_bbox"];
                    rows := [[CStr "['cat']"; CStr "b1"]; [CStr "cat dog"; CStr "b2"]] |};
     pred_csv := {| columns := ["answers"; "answear_bbox"];
                    rows := [[CStr "['cat']"; CStr "b1"]; [CStr "['cat dog']"; CStr "b2"]] |} |}.

(** The same table content written with commas and with tabs. *)
Definition comma_file : string :=
  (line comma ["doc_class"; "answers"] ++ line comma ["invoice"; "['cat']"])%string.

Definition tab_file : string :=
  (line tab ["doc_class"; "answers"] ++ line tab ["invoice"; "['cat']"])%string.

Definition table_of (r : result DataFrame) : DataFrame :=
  match r with
  | Ok t => t
  | Raise _ => {| columns := []; rows := [] |}
  end.

Definition column_of (df : DataFrame) (label : string) : list cell :=
  match getitem df label with
  | Ok col => col
  | Raise _ => []
  end.

(** The per-row table of [evaluator] and the columns the aggregations
    read. *)
Definition per_row : DataFrame := table_of (calculate_metrics_by_id evaluator).
Definition doc_classes : list cell := column_of per_row "doc_class".
Definition question_types : list cell := column_of per_row "question_type".
Definition wers : list Qc := numbers (column_of per_row "wer_error").
Definition cers : list Qc := numbers (column_of per_row "cer_error").
Definition bleus : list Qc := numbers (column_of per_row "bleu_score").

End Examples.

(** ** Further vocabulary *)

Section FurtherVocabulary.

Context {L : Libraries}.

(** The items [calculate_metrics_general] takes from a row of a table:
    the decoded answers, iterated as [list.extend] iterates them. *)
Definition items_at (df : DataFrame) (row : nat) : result (list pyval) :=
  v <- answers_at df row ;; py_iter v.

(** Every row of the table holds one cell per column. *)
Definition rectangular (df : DataFrame) : Prop :=
  Forall (fun r => List.length r = List.length (columns df)) (rows df).

(** The columns of the input format that the evaluator reads: every
    input file has them. *)
Definition input_format (df : DataFrame) : Prop :=
  In "answers" (columns df) /\ In "answear_bbox" (columns df).

(** The labels of the columns [calculate_metrics_by_id] adds. *)
Definition derived_labels : list string :=
  ["pred_answers"; "wer_error"; "cer_error"; "bleu_score"].

(** The keys of the rows of a grouped table: its first two cells. *)
Definition row_keys (df : DataFrame) : list (list cell) :=
  map (firstn 2) (rows df).

End FurtherVocabulary.

(** ** Further sample data *)

Module MoreExamples.

Import Sample Examples.

(** A pair of tables without rows. *)
Definition empty_pair : MetricEvaluator :=
  {| true_csv := {| columns := ["answers"; "answear_bbox"]; rows := [] |};
     pred_csv := {| columns := ["answers"; "answear_bbox"]; rows := [] |} |}.

(** The pair [single] with other columns around the same answers. *)
Definition single_variant : MetricEvaluator :=
  {| true_csv := {| columns := ["page"; "answers"];
                    rows := [[CStr "p1"; CStr "['hello world', 'cat']"]] |};
     pred_csv := {| columns := ["answers"; "model"];
                    rows := [[CStr "['hello word', 'cat']"; CStr "m"]] |} |}.

(** A table of classes without metric columns, and one whose classes
    are all missing. *)
Definition classes_only : DataFrame :=
  {| columns := ["doc_class"]; rows := [[CStr "invoice"]; [CStr "receipt"]] |}.

Definition unclassified : DataFrame :=
  {| columns := ["doc_class"]; rows := [[CNaN]; [CNaN]] |}.

(** A tab-delimited file with commas in its second record: read with
    commas, the record has more fields than the header. *)
Definition tab_file_with_commas : string :=
  (line tab ["id"; "answers"]
   ++ line tab ["q1"; "['a']"]
   ++ line tab ["q2"; "['a', 'b']"])%string.

(** Pairs of one row with all the columns of the input format: in the
    first the reference answer is the empty string, in the second the
    answers are the literal 42. *)
Definition empty_answer : MetricEvaluator :=
  {| true_csv := {| columns := header;
                    rows := [[CStr "q1"; CStr "invoice"; CStr "total"; CStr "['']"; CStr "b1"]] |};
     pred_csv := {| columns := header;
                    rows := [[CStr "q1"; CStr "invoice"; CStr "total"; CStr "['cat']"; CStr "b1"]] |} |}.

Definition integer_answer : MetricEvaluator :=
  {| true_csv := {| columns := header;
                    rows := [[CStr "q1"; CStr "invoice"; CStr "total"; CStr "42"; CStr "b1"]] |};
     pred_csv := {| columns := header;
                    rows := [[CStr "q1"; CStr "invoice"; CStr "total"; CStr "42"; CStr "b1"]] |} |}.

(** The per-row table of the sample pair with its rows in reverse. *)
Definition per_row_reversed : DataFrame :=
  {| columns := columns per_row; rows := rev (rows per_row) |}.

End MoreExamples.

(** * Properties *)

(** ** Loading and validation *)

Section Loading.

Context {L : Libraries}.

Lemma read_file_ok_comma (file : string) (t : DataFrame) :
  read_csv file comma = Ok t -> read_file file = Ok t.
Proof.
  unfold read_file, read_file_attempts. intros ->. reflexivity.
Qed.

Lemma read_file_cases (file : string) :
  (read_csv file comma = Raise ParserError
   /\ read_file_attempts file = ([comma; tab], read_csv file tab))
  \/ (read_csv file comma <> Raise ParserError
      /\ read_file_attempts file = ([comma], read_csv file comma)).
Proof.
  unfold read_file_attempts.
  destruct (read_csv file comma) as [t | e] eqn:E.
  - right. split; [discriminate | reflexivity].
  - destruct e; try (right; split; [discriminate | reflexivity]).
    left. split; reflexivity.
Qed.

(** C6.  [read_file] parses with the comma first: a table the comma
    parse yields is the result, whatever the tab parse would give.  It
    falls back to the tab only after the comma parse has failed, namely
    with a [ParserError], and the result is then what the tab parse
    gives, its table or its error; any other error of the comma parse is
    the error of [read_file].  So a table comes from the comma parse, or
    from the tab parse after the comma parse has failed, and when neither
    separator yields a table [read_file] fails with the parser's error. *)
Theorem read_file_comma_then_tab (file : string) :
  (forall t, read_csv file comma = Ok t -> read_file file = Ok t)
  /\ (read_csv file comma = Raise ParserError -> read_file file = read_csv file tab)
  /\ (forall e, read_csv file comma = Raise e -> e <> ParserError ->
        read_file file = Raise e)
  /\ (forall t, read_file file = Ok t ->
        read_csv file comma = Ok t
        \/ (raises (read_csv file comma) /\ read_csv file tab = Ok t))
  /\ (raises (read_csv file comma) -> raises (read_csv file tab) ->
        raises (read_file file)).
Proof.
  unfold read_file.
  destruct (read_file_cases file) as [[E ->] | [E ->]]; cbn [fst snd].
  - repeat split.
    + intros t Ht. rewrite E in Ht. discriminate.
    + intros e He Hne. rewrite E in He. congruence.
    + intros t Ht. right. split; [exists ParserError; exact E | exact Ht].
    + intros _ Htab. exact Htab.
  - repeat split.
    + intros t Ht. exact Ht.
    + intros H. contradiction.
    + intros e He _. exact He.
    + intros t Ht. left. exact Ht.
    + intros Hc _. exact Hc.
Qed.

Lemma validate_data_cases (self : MetricEvaluator) :
  (columns (true_csv self) <> columns (pred_csv self)
   /\ validate_data self = Raise (ValueError columns_differ))
  \/ (columns (true_csv self) = columns (pred_csv self)
      /\ len (true_csv self) <> len (pred_csv self)
      /\ validate_data self = Raise (ValueError row_counts_differ))
  \/ (columns (true_csv self) = columns (pred_csv self)
      /\ len (true_csv self) = len (pred_csv self)
      /\ validate_data self = Ok tt).
Proof.
  unfold validate_data.
  destruct (list_eq_dec string_dec _ _) as [Hc | Hc].
  - right. destruct (Nat.eqb_spec (len (true_csv self)) (len (pred_csv self))).
    + right. auto.
    + left. auto.
  - left. auto.
Qed.

(** C3.  Once both files are loaded, construction fails with the
    [ValueError] about columns exactly when the two sequences of column
    labels differ, with the [ValueError] about row counts exactly when the
    labels agree and the row counts differ, and it succeeds, with the two
    tables as loaded, exactly when both agree. *)
Theorem init_validates (true_file prediction_file : string) (t p : DataFrame) :
  read_file true_file = Ok t ->
  read_file prediction_file = Ok p ->
  (init true_file prediction_file = Raise (ValueError columns_differ)
     <-> columns t <> columns p)
  /\ (init true_file prediction_file = Raise (ValueError row_counts_differ)
     <-> columns t = columns p /\ len t <> len p)
  /\ (init true_file prediction_file = Ok {| true_csv := t; pred_csv := p |}
     <-> columns t = columns p /\ len t = len p)
  /\ (returns (init true_file prediction_file)
     <-> columns t = columns p /\ len t = len p).
Proof.
  intros Ht Hp. unfold init, returns. rewrite Ht, Hp. cbn [bind].
  destruct (validate_data_cases {| true_csv := t; pred_csv := p |})
    as [[Hc ->] | [(Hc & Hn & ->) | (Hc & Hn & ->)]];
    cbn [true_csv pred_csv bind] in *;
    repeat split; intros; try discriminate; try tauto;
    repeat match goal with
           | H : _ /\ _ |- _ => destruct H
           | H : exists _, _ |- _ => destruct H
           end;
    try contradiction; try discriminate; eauto.
Qed.

End Loading.

(** ** Facts about the table operations *)

Section TableFacts.

Lemma index_of_In (label : string) (labels : list string) :
  In label labels <-> exists i, index_of label labels = Some i.
Proof.
  induction labels as [| l rest IH]; cbn.
  - split; [tauto | intros [i H]; discriminate].
  - destruct (String.eqb_spec label l) as [-> | Hne].
    + split; eauto.
    + rewrite IH. split.
      * intros [H | [i H]]; [congruence |]. rewrite H. cbn. eauto.
      * intros [i H]. right. destruct (index_of label rest); [eauto | discriminate].
Qed.

Lemma existsb_eqb_In (label : string) (labels : list string) :
  existsb (String.eqb label) labels = true <-> In label labels.
Proof.
  rewrite existsb_exists. split.
  - intros (x & Hx & E). apply String.eqb_eq in E. now subst.
  - intros H. exists label. split; [exact H | apply String.eqb_refl].
Qed.

Lemma getitem_ok (df : DataFrame) (label : string) :
  In label (columns df) ->
  exists col, getitem df label = Ok col /\ List.length col = len df.
Proof.
  intros H. apply index_of_In in H as [i Hi]. unfold getitem. rewrite Hi.
  eexists. split; [reflexivity |]. unfold len. now rewrite length_map.
Qed.

Lemma getitem_raises (df : DataFrame) (label : string) :
  ~ In label (columns df) -> getitem df label = Raise (KeyError label).
Proof.
  intros H. unfold getitem.
  destruct (index_of label (columns df)) eqn:E; [| reflexivity].
  exfalso. apply H. apply index_of_In. eauto.
Qed.

Lemma without_labels (label : string) (labels : list string) :
  without label labels labels
  = filter (fun c => negb (String.eqb label c)) labels.
Proof.
  induction labels as [| l rest IH]; cbn; [reflexivity |].
  destruct (String.eqb label l); cbn; now rewrite IH.
Qed.

Lemma drop_ok (df : DataFrame) (label : string) :
  In label (columns df) ->
  drop df label
  = Ok {| columns := filter (fun c => negb (String.eqb label c)) (columns df);
          rows := map (without label (columns df)) (rows df) |}.
Proof.
  intros H. unfold drop. apply existsb_eqb_In in H. rewrite H.
  now rewrite without_labels.
Qed.

Lemma drop_raises (df : DataFrame) (label : string) :
  ~ In label (columns df) -> drop df label = Raise (KeyError label).
Proof.
  intros H. unfold drop.
  destruct (existsb (String.eqb label) (columns df)) eqn:E; [| reflexivity].
  apply existsb_eqb_In in E. contradiction.
Qed.

Lemma nth_error_map_seq {A : Type} (f : nat -> A) (n i : nat) :
  i < n -> nth_error (map f (seq 0 n)) i = Some (f i).
Proof.
  intros H. rewrite nth_error_map, nth_error_seq.
  destruct (Nat.ltb_spec i n); [reflexivity | lia].
Qed.

Lemma concat_rows_length (wa wb : nat) (ra rb : list (list cell)) :
  List.length ra = List.length rb ->
  List.length (concat_rows wa wb ra rb) = List.length ra.
Proof.
  revert rb. induction ra as [| x ra IH]; intros [| y rb] H; cbn in *;
    try discriminate; [reflexivity |].
  f_equal. apply IH. lia.
Qed.

Lemma concat_rows_nth (wa wb : nat) (ra rb : list (list cell)) (i : nat) (x y : list cell) :
  List.length ra = List.length rb ->
  nth_error ra i = Some x -> nth_error rb i = Some y ->
  nth_error (concat_rows wa wb ra rb) i = Some (x ++ y).
Proof.
  revert rb i. induction ra as [| a ra IH]; intros [| b rb] i H Ha Hb;
    cbn in *; try discriminate.
  - destruct i; discriminate.
  - destruct i as [| i]; cbn in *.
    + congruence.
    + apply IH; [lia | assumption | assumption].
Qed.

Lemma Forall2_nth_error {A B : Type} (R : A -> B -> Prop) (l : list A) (l' : list B)
    (i : nat) (a : A) (b : B) :
  Forall2 R l l' -> nth_error l i = Some a -> nth_error l' i = Some b -> R a b.
Proof.
  intros F. revert i. induction F as [| x y l l' Hxy _ IH]; intros [| i] Ha Hb;
    cbn in *; try discriminate.
  - congruence.
  - eauto.
Qed.

End TableFacts.

(** ** Per-row metrics *)

Section PerRow.

Context {L : Libraries}.

Lemma by_id_loop_ok self todo ms wl cl bl :
  row_results self todo ms ->
  by_id_loop self todo wl cl bl
  = Ok (wl ++ map wer_error ms, cl ++ map cer_error ms, bl ++ map bleu_score ms).
Proof.
  intros H. revert wl cl bl.
  induction H as [| row m todo ms Hrow _ IH]; intros wl cl bl; cbn.
  - now rewrite !app_nil_r.
  - rewrite Hrow. cbn [bind]. rewrite IH, <- !app_assoc. reflexivity.
Qed.

Lemma by_id_loop_inv self todo wl cl bl out :
  by_id_loop self todo wl cl bl = Ok out ->
  exists ms, row_results self todo ms
    /\ out = (wl ++ map wer_error ms, cl ++ map cer_error ms, bl ++ map bleu_score ms).
Proof.
  revert wl cl bl. induction todo as [| row todo IH]; intros wl cl bl H; cbn in H.
  - exists []. split; [constructor |]. cbn. rewrite !app_nil_r. congruence.
  - destruct (by_id_row self row) as [m |] eqn:E; cbn in H; [| discriminate].
    apply IH in H as (ms & F & ->). exists (m :: ms). split.
    + constructor; assumption.
    + cbn. now rewrite <- !app_assoc.
Qed.

Lemma by_id_loop_raises self todo wl cl bl row :
  In row todo -> raises (by_id_row self row) ->
  raises (by_id_loop self todo wl cl bl).
Proof.
  intros Hin [e He]. destruct (by_id_loop self todo wl cl bl) as [out |] eqn:E.
  - apply by_id_loop_inv in E as (ms & F & _). exfalso.
    unfold row_results in F. clear -F Hin He.
    induction F as [| x m todo ms Hx _ IH]; [contradiction |].
    destruct Hin as [-> | Hin]; [congruence | auto].
  - eexists. reflexivity.
Qed.

Lemma row_results_exist self todo :
  (forall row, In row todo -> returns (by_id_row self row)) ->
  exists ms, row_results self todo ms.
Proof.
  induction todo as [| row todo IH]; intros H.
  - exists []. constructor.
  - destruct (H row (or_introl eq_refl)) as [m Hm].
    destruct IH as [ms Hms]; [intros; apply H; now right |].
    exists (m :: ms). constructor; assumption.
Qed.

Lemma row_results_nth self n ms row :
  row_results self (seq 0 n) ms -> row < n ->
  exists m, nth_error ms row = Some m /\ by_id_row self row = Ok m.
Proof.
  unfold row_results. intros F Hlt.
  assert (Hlen : List.length ms = n)
    by (apply Forall2_length in F; now rewrite length_seq in F).
  destruct (nth_error ms row) as [m |] eqn:E.
  - exists m. split; [reflexivity |].
    apply (Forall2_nth_error row F); [| exact E].
    rewrite nth_error_seq. destruct (Nat.ltb_spec row n); [reflexivity | lia].
  - apply nth_error_None in E. lia.
Qed.

Lemma calculate_metrics_by_id_ok self ms pcol :
  In "answear_bbox" (columns (true_csv self)) ->
  row_results self (seq 0 (len (true_csv self))) ms ->
  getitem (pred_csv self) "answers" = Ok pcol ->
  List.length pcol = len (true_csv self) ->
  calculate_metrics_by_id self = Ok (per_row_table (true_csv self) pcol ms).
Proof.
  intros Hbbox Hms Hp Hlen. unfold calculate_metrics_by_id.
  rewrite (drop_ok _ _ Hbbox). cbn [bind].
  rewrite (by_id_loop_ok _ _ _ Hms). cbn [bind app]. rewrite Hp. cbn [bind].
  assert (Hn : List.length ms = List.length pcol).
  { apply Forall2_length in Hms. rewrite length_seq in Hms. lia. }
  unfold from_columns. cbn [forallb snd]. rewrite !length_map, Hn, !Nat.eqb_refl.
  cbn [andb bind map fst snd]. reflexivity.
Qed.

Lemma calculate_metrics_by_id_inv self out :
  calculate_metrics_by_id self = Ok out ->
  exists ms pcol,
    In "answear_bbox" (columns (true_csv self))
    /\ row_results self (seq 0 (len (true_csv self))) ms
    /\ getitem (pred_csv self) "answers" = Ok pcol
    /\ List.length pcol = len (true_csv self)
    /\ out = per_row_table (true_csv self) pcol ms.
Proof.
  intros H. unfold calculate_metrics_by_id in H.
  destruct (in_dec string_dec "answear_bbox" (columns (true_csv self))) as [Hb | Hb].
  2:{ rewrite (drop_raises _ _ Hb) in H. discriminate. }
  rewrite (drop_ok _ _ Hb) in H. cbn [bind] in H.
  destruct (by_id_loop self _ [] [] []) as [[[wl cl] bl] |] eqn:El; [| discriminate].
  apply by_id_loop_inv in El as (ms & Hms & E). cbn [app] in E.
  injection E as -> -> ->. cbn [bind] in H.
  destruct (getitem (pred_csv self) "answers") as [pcol |] eqn:Ep; [| discriminate].
  cbn [bind] in H.
  assert (Hn : List.length ms = len (true_csv self)).
  { apply Forall2_length in Hms. rewrite length_seq in Hms. lia. }
  unfold from_columns in H. cbn [forallb snd] in H. rewrite !length_map in H.
  destruct (Nat.eqb_spec (List.length ms) (List.length pcol)) as [Hq | Hq].
  2:{ rewrite Nat.eqb_refl in H. cbn in H. discriminate. }
  exists ms, pcol. repeat split; try assumption; [lia |].
  rewrite Nat.eqb_refl in H. cbn [andb bind map fst snd] in H.
  injection H as <-. reflexivity.
Qed.

Lemma per_row_table_len t pcol ms :
  List.length pcol = len t -> len (per_row_table t pcol ms) = len t.
Proof.
  intros H. unfold per_row_table, concat, len. cbn [rows columns].
  rewrite concat_rows_length; rewrite !length_map; [reflexivity |].
  rewrite length_seq. symmetry. exact H.
Qed.

Lemma per_row_table_row t pcol ms row r pa m :
  List.length pcol = len t ->
  nth_error (rows t) row = Some r ->
  nth_error pcol row = Some pa ->
  nth_error ms row = Some m ->
  nth_error (rows (per_row_table t pcol ms)) row
  = Some (without "answear_bbox" (columns t) r ++ pa :: metric_cells m).
Proof.
  intros Hlen Hr Hpa Hm. unfold per_row_table, concat. cbn [rows columns].
  assert (Hlt : row < List.length pcol) by (apply nth_error_Some; congruence).
  apply concat_rows_nth.
  - rewrite !length_map, length_seq. symmetry. exact Hlen.
  - rewrite nth_error_map, Hr. reflexivity.
  - rewrite (nth_error_map_seq _ Hlt). unfold metric_cells. repeat f_equal.
    + now apply nth_error_nth.
    + apply nth_error_nth. now rewrite !nth_error_map, Hm.
    + apply nth_error_nth. now rewrite !nth_error_map, Hm.
    + apply nth_error_nth. now rewrite !nth_error_map, Hm.
Qed.

Lemma last_cells_app (n : nat) (df : DataFrame) (row : nat) (a b : list cell) :
  nth_error (rows df) row = Some (a ++ b) -> List.length b = n ->
  last_cells n df row = Some b.
Proof.
  intros H Hb. unfold last_cells. rewrite H. cbn. f_equal.
  rewrite length_app, Hb, Nat.add_sub.
  rewrite skipn_app, skipn_all, Nat.sub_diag. reflexivity.
Qed.

End PerRow.

Section PerRowProperties.

Context {L : Libraries}.

Lemma answers_at_cell (df : DataFrame) (row : nat) :
  answers_at df row = (c <- answer_cell df row ;; literal_eval_cell c).
Proof.
  unfold answers_at, answer_cell. destruct (getitem df "answers"); reflexivity.
Qed.

Lemma answer_cell_nth (df : DataFrame) (col : list cell) (row : nat) (c : cell) :
  getitem df "answers" = Ok col -> nth_error col row = Some c ->
  answer_cell df row = Ok c.
Proof.
  intros Hg Hn. unfold answer_cell, at_row. rewrite Hg. cbn [bind]. now rewrite Hn.
Qed.

(** The result on a row is a function of the two answers cells of that
    row. *)
Lemma by_id_row_cells (self1 self2 : MetricEvaluator) (row : nat) :
  answer_cell (true_csv self1) row = answer_cell (true_csv self2) row ->
  answer_cell (pred_csv self1) row = answer_cell (pred_csv self2) row ->
  by_id_row self1 row = by_id_row self2 row.
Proof.
  intros Ht Hp. unfold by_id_row. now rewrite !answers_at_cell, Ht, Hp.
Qed.

Lemma by_id_table_row (self : MetricEvaluator) (out : DataFrame) (row : nat) (r : list cell) :
  calculate_metrics_by_id self = Ok out ->
  nth_error (rows (true_csv self)) row = Some r ->
  exists pa m,
    answer_cell (pred_csv self) row = Ok pa
    /\ by_id_row self row = Ok m
    /\ nth_error (rows out) row
       = Some (without "answear_bbox" (columns (true_csv self)) r ++ pa :: metric_cells m).
Proof.
  intros H Hr.
  apply calculate_metrics_by_id_inv in H as (ms & pcol & _ & Hms & Hp & Hlen & ->).
  assert (Hlt : row < len (true_csv self)) by (apply nth_error_Some; congruence).
  destruct (row_results_nth Hms Hlt) as (m & Hm & Hrow).
  destruct (nth_error pcol row) as [pa |] eqn:Hpa.
  2:{ apply nth_error_None in Hpa. lia. }
  exists pa, m. repeat split.
  - eapply answer_cell_nth; eassumption.
  - exact Hrow.
  - now apply per_row_table_row.
Qed.

(** C1, amended.  When the pair passes validation, the reference table
    has the columns of the input format, and on every row the loop body
    completes (both answers decode and have a length, and the three
    metric routines return), [calculate_metrics_by_id] returns a table
    with as many rows as the input, whose columns are those of the
    reference table without [answear_bbox] followed by [pred_answers],
    [wer_error], [cer_error] and [bleu_score], and whose row [i] is row
    [i] of the reference table without the bounding box, followed by the
    predicted answers and the three metrics of row [i]. *)
Theorem calculate_metrics_by_id_table (self : MetricEvaluator) :
  validate_data self = Ok tt ->
  input_format (true_csv self) ->
  (forall row, row < len (true_csv self) -> returns (by_id_row self row)) ->
  exists out,
    calculate_metrics_by_id self = Ok out
    /\ len out = len (true_csv self)
    /\ columns out
       = filter (fun c => negb (String.eqb "answear_bbox" c)) (columns (true_csv self))
         ++ ["pred_answers"; "wer_error"; "cer_error"; "bleu_score"]
    /\ forall row r,
         nth_error (rows (true_csv self)) row = Some r ->
         exists pa m,
           answer_cell (pred_csv self) row = Ok pa
           /\ by_id_row self row = Ok m
           /\ nth_error (rows out) row
              = Some (without "answear_bbox" (columns (true_csv self)) r
                      ++ pa :: metric_cells m).
Proof.
  intros Hv [Hans Hbbox] Hrows.
  destruct (validate_data_cases self) as [[_ E] | [(_ & _ & E) | (Hc & Hn & _)]];
    try congruence.
  destruct (@row_results_exist _ self (seq 0 (len (true_csv self)))) as [ms Hms].
  { intros row Hin. apply Hrows. apply in_seq in Hin. lia. }
  rewrite Hc in Hans. destruct (getitem_ok _ _ Hans) as (pcol & Hp & Hlen).
  rewrite <- Hn in Hlen.
  pose proof (calculate_metrics_by_id_ok Hbbox Hms Hp Hlen) as Hout.
  exists (per_row_table (true_csv self) pcol ms). repeat split.
  - exact Hout.
  - now apply per_row_table_len.
  - intros row r Hr. eapply by_id_table_row; eassumption.
Qed.

(** C10.  When [calculate_metrics_by_id] returns a table for each of two
    dataset pairs, and the pairs agree on the reference answers cell and
    on the predicted answers cell of row [i], the two tables carry the
    same three metric values on row [i], whatever the other rows and the
    other columns hold. *)
Theorem row_metrics_depend_on_row_answers
    (self1 self2 : MetricEvaluator) (out1 out2 : DataFrame) (i : nat) :
  calculate_metrics_by_id self1 = Ok out1 ->
  calculate_metrics_by_id self2 = Ok out2 ->
  i < len (true_csv self1) ->
  i < len (true_csv self2) ->
  answer_cell (true_csv self1) i = answer_cell (true_csv self2) i ->
  answer_cell (pred_csv self1) i = answer_cell (pred_csv self2) i ->
  exists m,
    by_id_row self1 i = Ok m
    /\ by_id_row self2 i = Ok m
    /\ last_cells 3 out1 i = Some (metric_cells m)
    /\ last_cells 3 out2 i = Some (metric_cells m).
Proof.
  intros H1 H2 Hi1 Hi2 Ht Hp.
  destruct (nth_error (rows (true_csv self1)) i) as [r1 |] eqn:E1.
  2:{ apply nth_error_None in E1. unfold len in Hi1. lia. }
  destruct (nth_error (rows (true_csv self2)) i) as [r2 |] eqn:E2.
  2:{ apply nth_error_None in E2. unfold len in Hi2. lia. }
  destruct (@by_id_table_row self1 out1 i r1 H1 E1) as (pa1 & m1 & _ & Hm1 & Hr1).
  destruct (@by_id_table_row self2 out2 i r2 H2 E2) as (pa2 & m2 & _ & Hm2 & Hr2).
  assert (m1 = m2) as <-.
  { rewrite (@by_id_row_cells self1 self2 i Ht Hp) in Hm1. congruence. }
  exists m1. repeat split; try assumption.
  - apply last_cells_app with (a := without "answear_bbox" (columns (true_csv self1)) r1 ++ [pa1]);
      [| reflexivity].
    now rewrite <- app_assoc.
  - apply last_cells_app with (a := without "answear_bbox" (columns (true_csv self2)) r2 ++ [pa2]);
      [| reflexivity].
    now rewrite <- app_assoc.
Qed.

(** C2, as the code has it.  The BLEU score of a row is the score of
    the call whose [hypotheses] are the decoded REFERENCE answers and
    whose single reference stream is the decoded PREDICTED answers. *)
Theorem row_bleu_roles (self : MetricEvaluator) (row : nat)
    (Y_true y_pred : pyval) (m : general_metrics) :
  answers_at (true_csv self) row = Ok Y_true ->
  answers_at (pred_csv self) row = Ok y_pred ->
  by_id_row self row = Ok m ->
  corpus_bleu {| hypotheses := Y_true; references := PList [y_pred] |}
  = Ok (bleu_score m).
Proof.
  intros Ht Hp H. unfold by_id_row in H. rewrite Ht, Hp in H. cbn [bind] in H.
  destruct (py_len Y_true); cbn [bind] in H; [| discriminate].
  destruct (py_len y_pred); cbn [bind] in H; [| discriminate].
  unfold score, bleu_arguments in H.
  destruct (wer Y_true y_pred); cbn [bind] in H; [| discriminate].
  destruct (cer Y_true y_pred); cbn [bind] in H; [| discriminate].
  destruct (corpus_bleu _) as [b |]; cbn [bind] in H; [| discriminate].
  injection H as <-. reflexivity.
Qed.

Lemma getitem_In (df : DataFrame) (label : string) (col : list cell) :
  getitem df label = Ok col -> In label (columns df).
Proof.
  intros H. destruct (in_dec string_dec label (columns df)) as [Hin | Hin];
    [exact Hin |].
  rewrite (getitem_raises _ _ Hin) in H. discriminate.
Qed.

Lemma answers_at_In (df : DataFrame) (row : nat) (v : pyval) :
  answers_at df row = Ok v -> In "answers" (columns df) /\ row < len df.
Proof.
  unfold answers_at, at_row. intros H.
  destruct (getitem df "answers") as [col |] eqn:E; [| discriminate].
  cbn [bind] in H. split; [eapply getitem_In; eassumption |].
  destruct (getitem_ok df "answers") as (col' & E' & Hlen);
    [eapply getitem_In; eassumption |].
  assert (col' = col) as -> by congruence. rewrite <- Hlen.
  apply nth_error_Some. destruct (nth_error col row); [discriminate | discriminate].
Qed.

Lemma by_id_row_ok_inv (self : MetricEvaluator) (row : nat) (m : general_metrics) :
  by_id_row self row = Ok m ->
  exists Y_true y_pred,
    answers_at (true_csv self) row = Ok Y_true
    /\ answers_at (pred_csv self) row = Ok y_pred
    /\ score Y_true y_pred = Ok m.
Proof.
  unfold by_id_row. intros H.
  destruct (answers_at (true_csv self) row) as [Y |]; [| discriminate].
  destruct (answers_at (pred_csv self) row) as [y |]; [| discriminate].
  cbn [bind] in H.
  destruct (py_len Y); [| discriminate]. destruct (py_len y); [| discriminate].
  cbn [bind] in H. eauto.
Qed.

Lemma by_id_row_lists (self : MetricEvaluator) (row : nat) (xs ys : list pyval) :
  answers_at (true_csv self) row = Ok (PList xs) ->
  answers_at (pred_csv self) row = Ok (PList ys) ->
  by_id_row self row = score (PList xs) (PList ys).
Proof.
  intros Ht Hp. unfold by_id_row. rewrite Ht, Hp. reflexivity.
Qed.

Lemma general_one_row (self : MetricEvaluator) (xs ys : list pyval) :
  len (true_csv self) = 1 ->
  answers_at (true_csv self) 0 = Ok (PList xs) ->
  answers_at (pred_csv self) 0 = Ok (PList ys) ->
  calculate_metrics_general self = score (PList xs) (PList ys).
Proof.
  intros Hn Ht Hp. unfold calculate_metrics_general. rewrite Hn.
  cbn [seq general_loop]. rewrite Ht, Hp. reflexivity.
Qed.

(** C4.  On a validated pair with exactly one row whose two answers
    fields decode to lists, [calculate_metrics_general] gives what the
    loop body of [calculate_metrics_by_id] gives on that row: the three
    values it returns are the three metric cells of the only row of the
    per-row table, and either function returns them whenever the other
    does (the per-row table also needs the [answear_bbox] column). *)
Theorem general_equals_per_row_on_one_row (self : MetricEvaluator) (xs ys : list pyval) :
  validate_data self = Ok tt ->
  len (true_csv self) = 1 ->
  answers_at (true_csv self) 0 = Ok (PList xs) ->
  answers_at (pred_csv self) 0 = Ok (PList ys) ->
  calculate_metrics_general self = by_id_row self 0
  /\ (forall out, calculate_metrics_by_id self = Ok out ->
        exists g, calculate_metrics_general self = Ok g
                  /\ last_cells 3 out 0 = Some (metric_cells g))
  /\ (forall g, calculate_metrics_general self = Ok g ->
        In "answear_bbox" (columns (true_csv self)) ->
        exists out, calculate_metrics_by_id self = Ok out
                    /\ last_cells 3 out 0 = Some (metric_cells g)).
Proof.
  intros Hv Hn Ht Hp.
  assert (Heq : calculate_metrics_general self = by_id_row self 0).
  { rewrite (general_one_row _ Hn Ht Hp). symmetry. now apply by_id_row_lists. }
  assert (Hr : exists r, nth_error (rows (true_csv self)) 0 = Some r).
  { unfold len in Hn. destruct (rows (true_csv self)); [discriminate | cbn; eauto]. }
  destruct Hr as [r Hr].
  assert (Hlast : forall out g,
             calculate_metrics_by_id self = Ok out ->
             calculate_metrics_general self = Ok g ->
             last_cells 3 out 0 = Some (metric_cells g)).
  { intros out g Hout Hg.
    destruct (@by_id_table_row self out 0 r Hout Hr) as (pa & m & _ & Hm & Hrow).
    assert (m = g) as -> by congruence.
    apply last_cells_app
      with (a := without "answear_bbox" (columns (true_csv self)) r ++ [pa]);
      [| reflexivity].
    now rewrite <- app_assoc. }
  split; [exact Heq |]. split.
  - intros out Hout.
    destruct (@by_id_table_row self out 0 r Hout Hr) as (pa & m & _ & Hm & _).
    exists m. split; [congruence |]. apply Hlast; congruence.
  - intros g Hg Hbbox.
    destruct (validate_data_cases self) as [[_ E] | [(_ & _ & E) | (Hc & Hlen & _)]];
      try congruence.
    destruct (answers_at_In _ _ Hp) as [Hans _].
    destruct (getitem_ok _ _ Hans) as (pcol & Hpcol & Hl).
    rewrite <- Hlen in Hl.
    assert (Hms : row_results self (seq 0 (len (true_csv self))) [g]).
    { rewrite Hn. cbn [seq]. repeat constructor. congruence. }
    pose proof (calculate_metrics_by_id_ok Hbbox Hms Hpcol Hl) as Hout.
    eexists. split; [exact Hout | now apply Hlast].
Qed.

(** C8, amended.  When decoding the answers cell of a row of either
    table fails, the text of that cell is not the serialization of a
    sequence of strings, and [calculate_metrics_by_id] fails as a whole:
    it returns no table. *)
Theorem decode_failure_aborts (self : MetricEvaluator) (row : nat) (c : cell) :
  validate_data self = Ok tt ->
  answer_cell (true_csv self) row = Ok c \/ answer_cell (pred_csv self) row = Ok c ->
  raises (literal_eval_cell c) ->
  (forall text xs, c = CStr text -> literal_eval text <> Ok (PList (map PStr xs)))
  /\ raises (calculate_metrics_by_id self).
Proof.
  intros Hv Hc [e He]. split.
  - intros text xs -> H. cbn in He. congruence.
  - destruct (calculate_metrics_by_id self) as [out |] eqn:Hout; [| eexists; reflexivity].
    exfalso.
    apply calculate_metrics_by_id_inv in Hout as (ms & pcol & _ & Hms & Hp & Hlen & _).
    assert (Hlt : row < len (true_csv self)).
    { destruct (validate_data_cases self) as [[_ E] | [(_ & _ & E) | (_ & Hn & _)]];
        try congruence.
      destruct Hc as [Hc | Hc]; unfold answer_cell, at_row in Hc.
      - destruct (getitem (true_csv self) "answers") as [col |] eqn:Eg; [| discriminate].
        cbn [bind] in Hc.
        destruct (getitem_ok (true_csv self) "answers") as (col' & E' & Hl);
          [eapply getitem_In; eassumption |].
        assert (col' = col) as -> by congruence. rewrite <- Hl.
        apply nth_error_Some. destruct (nth_error col row); discriminate.
      - rewrite Hp in Hc. cbn [bind] in Hc. rewrite <- Hlen.
        apply nth_error_Some. destruct (nth_error pcol row); discriminate. }
    destruct (row_results_nth Hms Hlt) as (m & _ & Hm).
    apply by_id_row_ok_inv in Hm as (Y & y & HY & Hy & _).
    rewrite answers_at_cell in HY, Hy.
    destruct Hc as [Hc | Hc]; rewrite Hc in *; cbn [bind] in *; congruence.
Qed.

End PerRowProperties.

(** ** Metrics by document class *)

Section ValueCounts.

Lemma cell_eqb_refl (c : cell) : c <> CNaN -> cell_eqb c c = true.
Proof.
  intros H. destruct c; try congruence; unfold cell_eqb;
    destruct (cell_eq_dec _ _); congruence.
Qed.

Lemma cell_eqb_eq (a b : cell) : cell_eqb a b = true -> a = b /\ a <> CNaN.
Proof.
  destruct a, b; unfold cell_eqb; try discriminate;
    destruct (cell_eq_dec _ _); intros; try discriminate; split; congruence.
Qed.

Lemma StronglySorted_impl_in {A : Type} (R R' : A -> A -> Prop) (l : list A) :
  (forall a b, In a l -> In b l -> R a b -> R' a b) ->
  StronglySorted R l -> StronglySorted R' l.
Proof.
  intros H S. induction S as [| x l S IH F]; constructor.
  - apply IH. intros a b Ha Hb. apply H; now right.
  - rewrite Forall_forall in *. intros y Hy. apply H; [now left | now right | auto].
Qed.

Lemma remove_sorted (R : cell -> cell -> Prop) (x : cell) (l : list cell) :
  StronglySorted R l -> StronglySorted R (remove cell_eq_dec x l).
Proof.
  intros S. induction S as [| y l S IH F]; cbn; [constructor |].
  destruct (cell_eq_dec x y); [exact IH |]. constructor; [exact IH |].
  rewrite Forall_forall in *. intros z Hz. apply F.
  now apply in_remove in Hz.
Qed.

Lemma uniq_In (x : cell) (s : list cell) : In x (uniq s) <-> In x s.
Proof.
  induction s as [| y s IH]; cbn; [tauto |]. split.
  - intros [-> | H]; [now left |]. apply in_remove in H. right. tauto.
  - intros [-> | H]; [now left |].
    destruct (cell_eq_dec y x) as [-> | Hne]; [now left |].
    right. apply in_in_remove; [congruence | tauto].
Qed.

Lemma uniq_NoDup (s : list cell) : NoDup (uniq s).
Proof.
  induction s as [| y s IH]; cbn; constructor.
  - apply remove_In.
  - clear -IH. induction IH as [| z l Hz _ IH]; cbn; [constructor |].
    destruct (cell_eq_dec y z); [exact IH |]. constructor; [| exact IH].
    intros H. apply in_remove in H. tauto.
Qed.

Lemma uniq_sorted (s : list cell) :
  StronglySorted (fun a b => first_index a s < first_index b s) (uniq s).
Proof.
  induction s as [| y s IH]; cbn [uniq]; constructor.
  - apply (remove_sorted y) in IH.
    eapply StronglySorted_impl_in; [| exact IH].
    intros a b Ha Hb Hlt. cbv beta in Hlt. apply in_remove in Ha, Hb. cbn [first_index].
    destruct (cell_eq_dec a y); [tauto |]. destruct (cell_eq_dec b y); [tauto |]. lia.
  - apply Forall_forall. intros z Hz. apply in_remove in Hz. cbn [first_index].
    destruct (cell_eq_dec y y); [| congruence].
    destruct (cell_eq_dec z y); [tauto | lia].
Qed.

Lemma insert_by_count_In (s : list cell) (x z : cell) (l : list cell) :
  In z (insert_by_count s x l) <-> z = x \/ In z l.
Proof.
  induction l as [| y l IH]; cbn.
  - intuition.
  - destruct (Nat.leb (count s y) (count s x)); cbn; [intuition |].
    rewrite IH. intuition.
Qed.

Lemma insert_by_count_NoDup (s : list cell) (x : cell) (l : list cell) :
  ~ In x l -> NoDup l -> NoDup (insert_by_count s x l).
Proof.
  intros Hx N. induction N as [| y l Hy N IH]; cbn.
  - constructor; [tauto | constructor].
  - destruct (Nat.leb (count s y) (count s x)).
    + constructor; [exact Hx | now constructor].
    + constructor.
      * rewrite insert_by_count_In. cbn in Hx. intuition.
      * apply IH. cbn in Hx. tauto.
Qed.

(** Inserting an element that precedes, in first-seen order, all the
    ones already placed keeps the list in the order of the claim. *)
Lemma insert_by_count_sorted (s : list cell) (before : cell -> cell -> Prop)
    (x : cell) (l : list cell) :
  let R a b := count s b < count s a \/ (count s a = count s b /\ before a b) in
  StronglySorted R l -> Forall (before x) l ->
  StronglySorted R (insert_by_count s x l).
Proof.
  intros R S. induction S as [| y l S IH F]; intros B; cbn.
  - repeat constructor.
  - apply Forall_cons_iff in B as [By Bl].
    destruct (Nat.leb_spec (count s y) (count s x)) as [Hle | Hgt].
    + constructor; [now constructor |].
      rewrite Forall_forall in *. intros z [<- | Hz].
      * unfold R. destruct (Nat.eq_dec (count s y) (count s x)); [right | left]; auto; lia.
      * assert (Hzy : count s z <= count s y).
        { destruct (F z Hz) as [? | [? _]]; lia. }
        unfold R. pose proof (Bl z Hz).
        destruct (Nat.eq_dec (count s z) (count s x)); [right | left]; auto; lia.
    + constructor; [now apply IH |].
      rewrite Forall_forall in *. intros z Hz.
      apply insert_by_count_In in Hz as [-> | Hz]; [left; lia | now apply F].
Qed.

Lemma sort_by_count_In (s l : list cell) (z : cell) :
  In z (fold_right (insert_by_count s) [] l) <-> In z l.
Proof.
  induction l as [| x l IH]; cbn; [tauto |].
  rewrite insert_by_count_In, IH. intuition.
Qed.

Lemma sort_by_count_NoDup (s l : list cell) :
  NoDup l -> NoDup (fold_right (insert_by_count s) [] l).
Proof.
  intros N. induction N as [| x l Hx N IH]; cbn; [constructor |].
  apply insert_by_count_NoDup; [| exact IH]. now rewrite sort_by_count_In.
Qed.

Lemma sort_by_count_sorted (s : list cell) (before : cell -> cell -> Prop) (l : list cell) :
  StronglySorted before l ->
  StronglySorted
    (fun a b => count s b < count s a \/ (count s a = count s b /\ before a b))
    (fold_right (insert_by_count s) [] l).
Proof.
  intros S. induction S as [| x l S IH F]; cbn; [constructor |].
  apply insert_by_count_sorted; [exact IH |].
  rewrite Forall_forall in *. intros z Hz. apply F. now apply sort_by_count_In in Hz.
Qed.

Lemma count_present (s : list cell) (x : cell) :
  x <> CNaN -> count (filter (fun c => negb (isna c)) s) x = count s x.
Proof.
  intros Hx. unfold count. induction s as [| y s IH]; [reflexivity |].
  destruct y; cbn [filter isna negb count_occ];
    destruct (cell_eq_dec _ x); congruence.
Qed.

Lemma first_index_present (s : list cell) (a b : cell) :
  a <> CNaN -> b <> CNaN ->
  first_index a (filter (fun c => negb (isna c)) s)
    < first_index b (filter (fun c => negb (isna c)) s)
  <-> first_index a s < first_index b s.
Proof.
  intros Ha Hb. induction s as [| y s IH]; cbn; [tauto |].
  destruct y; cbn;
    repeat match goal with
           | |- context [cell_eq_dec ?u ?v] => destruct (cell_eq_dec u v)
           end; try congruence; try lia; rewrite <- ?Nat.succ_lt_mono; exact IH.
Qed.

Lemma In_present (s : list cell) (x : cell) :
  In x (filter (fun c => negb (isna c)) s) <-> In x s /\ x <> CNaN.
Proof.
  rewrite filter_In. destruct x; cbn; intuition congruence.
Qed.

(** The index of [value_counts]: each value present once, the more
    frequent first, and among equally frequent values the one seen
    first. *)
Lemma value_counts_index_spec (s : list cell) :
  NoDup (value_counts_index s)
  /\ (forall c, In c (value_counts_index s) <-> In c s /\ c <> CNaN)
  /\ StronglySorted (more_frequent_or_earlier s) (value_counts_index s).
Proof.
  unfold value_counts_index.
  set (present := filter (fun c => negb (isna c)) s).
  assert (Hin : forall c, In c (fold_right (insert_by_count present) [] (uniq present))
                          <-> In c s /\ c <> CNaN).
  { intros c. rewrite sort_by_count_In, uniq_In. apply In_present. }
  split; [apply sort_by_count_NoDup, uniq_NoDup |]. split; [exact Hin |].
  eapply StronglySorted_impl_in;
    [| apply sort_by_count_sorted, (uniq_sorted present)].
  intros a b Ha Hb. apply Hin in Ha as [_ Ha], Hb as [_ Hb].
  unfold more_frequent_or_earlier, present.
  rewrite !(count_present s) by assumption.
  rewrite (first_index_present s Ha Hb). tauto.
Qed.

End ValueCounts.

Section ByDocType.

Lemma map_seq_nth {A B : Type} (l : list A) (body : nat -> B) (G : A -> B) :
  (forall i x, nth_error l i = Some x -> body i = G x) ->
  map body (seq 0 (List.length l)) = map G l.
Proof.
  revert body. induction l as [| x l IH]; intros body H; [reflexivity |].
  cbn [List.length seq map]. f_equal; [now apply H |].
  rewrite <- seq_shift, map_map. apply IH. intros i y Hy. now apply (H (S i)).
Qed.

Lemma nth_map_some {A : Type} (f : A -> cell) (l : list A) (i : nat) (x : A) :
  nth_error l i = Some x -> nth i (map f l) CNaN = f x.
Proof.
  intros H. apply nth_error_nth. now rewrite nth_error_map, H.
Qed.

Lemma from_columns_rows (l : list cell) (f1 f2 f3 : cell -> cell) (a b c d : string) :
  from_columns (List.length l) [(a, l); (b, map f1 l); (c, map f2 l); (d, map f3 l)]
  = Ok {| columns := [a; b; c; d];
          rows := map (fun x => [x; f1 x; f2 x; f3 x]) l |}.
Proof.
  unfold from_columns. cbn [forallb snd]. rewrite !length_map, !Nat.eqb_refl.
  cbn [andb map fst snd]. f_equal. f_equal.
  apply map_seq_nth. intros i x Hx.
  rewrite !(nth_map_some _ _ _ Hx). f_equal. now apply nth_error_nth.
Qed.

Lemma mean_numbers (xs : list Qc) :
  xs <> [] -> mean (map CNum xs) = Ok (CNum (average xs)).
Proof.
  intros H. unfold mean.
  assert (E1 : existsb is_text (map CNum xs) = false)
    by (clear; induction xs; cbn; auto).
  assert (E2 : numbers (map CNum xs) = xs)
    by (clear; induction xs as [| x xs IH]; cbn; congruence).
  rewrite E1, E2. destruct xs; [contradiction | reflexivity].
Qed.

Lemma masked_rows_column {R : Type} (f g : R -> cell) (v : cell) (rs : list R) :
  map g (map fst (filter snd (combine rs (map (fun c => cell_eqb c v) (map f rs)))))
  = map snd (filter (fun p => cell_eqb (fst p) v) (combine (map f rs) (map g rs))).
Proof.
  induction rs as [| r rs IH]; cbn; [reflexivity |].
  destruct (cell_eqb (f r) v); cbn; now rewrite IH.
Qed.

Lemma class_values_cells (dc : list cell) (xs : list Qc) (c : cell) :
  map snd (filter (fun p => cell_eqb (fst p) c) (combine dc (map CNum xs)))
  = map CNum (class_values dc xs c).
Proof.
  unfold class_values. revert xs.
  induction dc as [| d dc IH]; intros [| x xs]; cbn; try reflexivity.
  destruct (cell_eqb d c); cbn; now rewrite IH.
Qed.

Lemma class_values_nonempty (dc : list cell) (xs : list Qc) (c : cell) :
  List.length xs = List.length dc -> In c dc -> c <> CNaN ->
  class_values dc xs c <> [].
Proof.
  unfold class_values. revert xs.
  induction dc as [| d dc IH]; intros [| x xs] Hlen Hin Hc; cbn in *;
    try contradiction; try discriminate.
  destruct Hin as [-> | Hin].
  - rewrite (cell_eqb_refl Hc). discriminate.
  - destruct (cell_eqb d c); [discriminate |]. apply IH; auto.
Qed.

Lemma getitem_column (df : DataFrame) (label : string) (col : list cell) :
  getitem df label = Ok col ->
  exists i, index_of label (columns df) = Some i
            /\ col = map (fun r => nth i r CNaN) (rows df).
Proof.
  unfold getitem. destruct (index_of label (columns df)) as [i |];
    [| discriminate].
  intros H. exists i. split; [reflexivity | congruence].
Qed.

(** The mean of a metric over the rows of a class that is present. *)
Lemma class_mean_ok (df : DataFrame) (dc : list cell) (metric : string)
    (xs : list Qc) (c : cell) :
  getitem df "doc_class" = Ok dc ->
  getitem df metric = Ok (map CNum xs) ->
  In c dc -> c <> CNaN ->
  class_mean df c metric = Ok (CNum (average (class_values dc xs c))).
Proof.
  intros Hdc Hm Hin Hc. unfold class_mean, where_eq. rewrite Hdc. cbn [bind].
  apply getitem_column in Hdc as (i & _ & ->).
  apply getitem_column in Hm as (j & Hj & Hxs).
  unfold getitem. cbn [columns rows]. rewrite Hj. cbn [bind].
  rewrite (masked_rows_column (fun r => nth i r CNaN) (fun r => nth j r CNaN)).
  rewrite <- Hxs, class_values_cells. apply mean_numbers.
  apply class_values_nonempty; [| assumption | assumption].
  apply (f_equal (@List.length cell)) in Hxs. now rewrite !length_map in *.
Qed.

Lemma by_doc_type_loop_ok (df : DataFrame) (fw fc fb : cell -> cell)
    (doc_types wl cl bl : list cell) :
  (forall c, In c doc_types ->
     class_mean df c "wer_error" = Ok (fw c)
     /\ class_mean df c "cer_error" = Ok (fc c)
     /\ class_mean df c "bleu_score" = Ok (fb c)) ->
  by_doc_type_loop df doc_types wl cl bl
  = Ok (wl ++ map fw doc_types, cl ++ map fc doc_types, bl ++ map fb doc_types).
Proof.
  revert wl cl bl. induction doc_types as [| c rest IH]; intros wl cl bl H; cbn.
  - now rewrite !app_nil_r.
  - destruct (H c (or_introl eq_refl)) as (-> & -> & ->). cbn [bind].
    rewrite IH by (intros; apply H; now right).
    now rewrite <- !app_assoc.
Qed.


End ByDocType.

(** ** Metrics by document class and question type *)

Section GroupBy.

Lemma cell_compare_eq (a b : cell) : cell_compare a b = Eq <-> a = b.
Proof.
  destruct a as [s | x |], b as [t | y |]; cbn; try (split; congruence).
  - rewrite (String_as_OT.cmp_eq s t). split; congruence.
  - rewrite <- Qceq_alt. split; congruence.
Qed.

Lemma cell_compare_antisym (a b : cell) :
  cell_compare b a = CompOpp (cell_compare a b).
Proof.
  destruct a as [s | x |], b as [t | y |]; cbn; try reflexivity.
  - apply String.compare_antisym.
  - unfold Qccompare. symmetry. apply Qcompare_antisym.
Qed.

Lemma cell_compare_trans (a b c : cell) :
  cell_compare a b = Lt -> cell_compare b c = Lt -> cell_compare a c = Lt.
Proof.
  destruct a as [s | x |], b as [t | y |], c as [u | z |]; cbn;
    try congruence.
  - intros H1 H2. apply String_as_OT.cmp_lt in H1, H2. apply String_as_OT.cmp_lt.
    eapply String_as_OT.lt_trans; eassumption.
  - unfold Qccompare. rewrite <- !Qlt_alt. apply Qlt_trans.
Qed.

Lemma key_compare_eq (a b : key) : key_compare a b = Eq <-> a = b.
Proof.
  destruct a as [a1 a2], b as [b1 b2]. unfold key_compare. cbn [fst snd].
  destruct (cell_compare a1 b1) eqn:E.
  - apply cell_compare_eq in E as ->. rewrite cell_compare_eq.
    split; congruence.
  - split; [discriminate |]. intros H. injection H as -> ->.
    assert (cell_compare b1 b1 = Eq) by now apply cell_compare_eq. congruence.
  - split; [discriminate |]. intros H. injection H as -> ->.
    assert (cell_compare b1 b1 = Eq) by now apply cell_compare_eq. congruence.
Qed.

Lemma key_compare_antisym (a b : key) :
  key_compare b a = CompOpp (key_compare a b).
Proof.
  unfold key_compare.
  rewrite (cell_compare_antisym (fst a) (fst b)), (cell_compare_antisym (snd a) (snd b)).
  destruct (cell_compare (fst a) (fst b)); reflexivity.
Qed.

Lemma key_lt_trans (a b c : key) : key_lt a b -> key_lt b c -> key_lt a c.
Proof.
  unfold key_lt, key_compare.
  destruct (cell_compare (fst a) (fst b)) eqn:E1; try discriminate;
    destruct (cell_compare (fst b) (fst c)) eqn:E2; try discriminate; intros H1 H2.
  - apply cell_compare_eq in E1, E2. rewrite E1, <- E2 in *.
    assert (E : cell_compare (fst b) (fst b) = Eq) by now apply cell_compare_eq.
    rewrite E. eapply cell_compare_trans; eassumption.
  - apply cell_compare_eq in E1. rewrite E1, E2. reflexivity.
  - apply cell_compare_eq in E2. rewrite <- E2, E1. reflexivity.
  - now rewrite (cell_compare_trans _ _ _ E1 E2).
Qed.

Lemma key_lt_irrefl (a : key) : ~ key_lt a a.
Proof.
  unfold key_lt. assert (key_compare a a = Eq) by now apply key_compare_eq.
  congruence.
Qed.

(** On text labels the order is the lexicographic order of the pair,
    each label compared as a string. *)
Lemma key_lt_text (a b c d : string) :
  key_lt (CStr a, CStr b) (CStr c, CStr d)
  <-> String.compare a c = Lt \/ (a = c /\ String.compare b d = Lt).
Proof.
  unfold key_lt, key_compare. cbn.
  destruct (String.compare a c) eqn:E.
  - apply String.compare_eq_iff in E. split; [auto | intros [? | [_ ?]]; congruence].
  - split; auto.
  - split; [discriminate |]. intros [? | [-> _]]; [discriminate |].
    assert (String.compare c c = Eq) by now apply String_as_OT.cmp_eq. congruence.
Qed.

Lemma insert_key_In (k z : key) (l : list key) :
  In z (insert_key k l) <-> z = k \/ In z l.
Proof.
  induction l as [| h l IH]; cbn; [intuition |].
  destruct (key_compare k h) eqn:E; cbn.
  - apply key_compare_eq in E as ->. intuition.
  - intuition.
  - rewrite IH. intuition.
Qed.

Lemma insert_key_sorted (k : key) (l : list key) :
  StronglySorted key_lt l -> StronglySorted key_lt (insert_key k l).
Proof.
  intros S. induction S as [| h l S IH F]; cbn; [repeat constructor |].
  destruct (key_compare k h) eqn:E.
  - now constructor.
  - constructor; [now constructor |]. constructor; [exact E |].
    rewrite Forall_forall in *. intros z Hz. eapply key_lt_trans; [exact E | auto].
  - constructor; [exact IH |].
    rewrite Forall_forall in *. intros z Hz.
    apply insert_key_In in Hz as [-> | Hz]; [| auto].
    unfold key_lt. rewrite key_compare_antisym, E. reflexivity.
Qed.

Lemma sorted_NoDup (l : list key) : StronglySorted key_lt l -> NoDup l.
Proof.
  intros S. induction S as [| h l S IH F]; constructor; [| exact IH].
  intros Hin. rewrite Forall_forall in F. exact (key_lt_irrefl (F h Hin)).
Qed.

Lemma has_na_false (k : key) : has_na k = false <-> fst k <> CNaN /\ snd k <> CNaN.
Proof.
  destruct k as [[| |] [| |]]; cbn; intuition congruence.
Qed.

(** The group keys: the pairs present with no missing part, each once,
    in ascending order. *)
Lemma group_keys_spec (a b : list cell) :
  StronglySorted key_lt (group_keys a b)
  /\ forall k, In k (group_keys a b)
               <-> In k (combine a b) /\ fst k <> CNaN /\ snd k <> CNaN.
Proof.
  unfold group_keys.
  set (present := filter (fun k => negb (has_na k)) (combine a b)).
  assert (Hp : forall k, In k present
                         <-> In k (combine a b) /\ fst k <> CNaN /\ snd k <> CNaN).
  { intros k. unfold present. rewrite filter_In, negb_true_iff, has_na_false. tauto. }
  clearbody present. split.
  - clear Hp. induction present as [| k l IH]; cbn; [constructor |].
    apply insert_key_sorted. apply IH.
  - intros k. rewrite <- Hp. clear Hp. induction present as [| h l IH]; cbn; [tauto |].
    rewrite insert_key_In, IH. intuition.
Qed.

Lemma key_eqb_refl (k : key) : fst k <> CNaN -> snd k <> CNaN -> key_eqb k k = true.
Proof.
  intros H1 H2. unfold key_eqb. now rewrite !cell_eqb_refl.
Qed.

Lemma group_values_cells (keys : list key) (xs : list Qc) (k : key) :
  group_values keys (map CNum xs) k
  = map CNum (map snd (filter (fun kv => key_eqb (fst kv) k) (combine keys xs))).
Proof.
  unfold group_values. revert xs.
  induction keys as [| h keys IH]; intros [| x xs]; cbn; try reflexivity.
  destruct (key_eqb h k); cbn; now rewrite IH.
Qed.

Lemma group_nonempty (keys : list key) (xs : list Qc) (k : key) :
  List.length xs = List.length keys -> In k keys -> key_eqb k k = true ->
  map snd (filter (fun kv => key_eqb (fst kv) k) (combine keys xs)) <> [].
Proof.
  revert xs. induction keys as [| h keys IH]; intros [| x xs] Hlen Hin Hk; cbn in *;
    try contradiction; try discriminate.
  destruct Hin as [-> | Hin].
  - rewrite Hk. discriminate.
  - destruct (key_eqb h k); [discriminate |]. apply IH; auto.
Qed.

Lemma holds_text_numbers (xs : list Qc) : holds_text (map CNum xs) = false.
Proof. unfold holds_text. induction xs; cbn; auto. Qed.

Lemma mean_of_numbers_cells (xs : list Qc) :
  xs <> [] -> mean_of_numbers (map CNum xs) = CNum (average xs).
Proof.
  intros H. unfold mean_of_numbers.
  assert (E : numbers (map CNum xs) = xs)
    by (clear; induction xs as [| x xs IH]; cbn; congruence).
  rewrite E. destruct xs; [contradiction | reflexivity].
Qed.

Lemma group_mean_ok (dc qt : list cell) (xs : list Qc) (k : key) :
  List.length xs = List.length (combine dc qt) ->
  In k (combine dc qt) -> fst k <> CNaN -> snd k <> CNaN ->
  mean_of_numbers (group_values (combine dc qt) (map CNum xs) k)
  = CNum (average (key_values dc qt xs k)).
Proof.
  intros Hlen Hin H1 H2. rewrite group_values_cells. apply mean_of_numbers_cells.
  apply group_nonempty; [assumption | assumption | now apply key_eqb_refl].
Qed.

Lemma getitem_length (df : DataFrame) (label : string) (col : list cell) :
  getitem df label = Ok col -> List.length col = len df.
Proof.
  intros H. apply getitem_column in H as (i & _ & ->). apply length_map.
Qed.

(** What the specification says of [group_by_doc_question] holds on
    pandas before 2.0: on a table whose three metric columns hold
    numbers the function returns a flat table with one row per pair
    (document class, question type) present in the input, the row
    holding the pair and the arithmetic means of the three metrics over
    the rows of that pair, and the rows are in ascending lexicographic
    order of the pair. *)
Lemma group_by_means_before_2_0 (df : DataFrame) (dc qt : list cell)
    (ws cs bs : list Qc) :
  getitem df "doc_class" = Ok dc ->
  getitem df "question_type" = Ok qt ->
  getitem df "wer_error" = Ok (map CNum ws) ->
  getitem df "cer_error" = Ok (map CNum cs) ->
  getitem df "bleu_score" = Ok (map CNum bs) ->
  exists keys,
    group_by_doc_question before_2_0 df
    = Ok {| columns := ["doc_class"; "question_type";
                        "wer_error"; "cer_error"; "bleu_score"];
            rows := map (fun k => [fst k; snd k;
                                   CNum (average (key_values dc qt ws k));
                                   CNum (average (key_values dc qt cs k));
                                   CNum (average (key_values dc qt bs k))])
                        keys |}
    /\ NoDup keys
    /\ (forall k, In k keys
                  <-> In k (combine dc qt) /\ fst k <> CNaN /\ snd k <> CNaN)
    /\ StronglySorted key_lt keys.
Proof.
  intros Hdc Hqt Hw Hc Hb. exists (group_keys dc qt).
  destruct (group_keys_spec dc qt) as (Hsorted & Hin).
  repeat split; try assumption; try (now apply Hin); [| now apply sorted_NoDup].
  assert (Hlen : forall xs label, getitem df label = Ok (map CNum xs) ->
                   List.length xs = List.length (combine dc qt)).
  { intros xs label H. apply getitem_length in H, Hdc, Hqt.
    rewrite length_map in H. rewrite length_combine. lia. }
  unfold group_by_doc_question. rewrite Hdc, Hqt, Hw, Hc, Hb. cbn [bind].
  cbn [filter snd]. rewrite !holds_text_numbers. cbn [negb map fst app].
  do 2 f_equal. apply map_ext_in.
  intros k Hk. apply Hin in Hk as (Hk & H1 & H2). cbn [snd map app].
  rewrite !group_mean_ok by eauto. reflexivity.
Qed.

(** C9, as the code has it.  On pandas from 2.0 on
    [group_by_doc_question] returns no table: whatever table has the two
    key columns, the subscript of line 121, three labels without list
    brackets, raises a [ValueError].  (The docstring promises the
    grouped table with the metrics, which the code does return on pandas
    before 2.0: [group_by_means_before_2_0].) *)
Theorem group_by_refuses_tuple (df : DataFrame) :
  In "doc_class" (columns df) ->
  In "question_type" (columns df) ->
  group_by_doc_question since_2_0 df = Raise (ValueError tuple_of_labels).
Proof.
  intros Hd Hq. unfold group_by_doc_question.
  destruct (getitem_ok _ _ Hd) as (dc & -> & _).
  destruct (getitem_ok _ _ Hq) as (qt & -> & _). reflexivity.
Qed.

End GroupBy.

(** ** The properties on the sample data *)

Section OnSampleData.

Import Sample Examples.

Lemma returns_of_ok {A : Type} (r : result A) :
  match r with Ok _ => True | Raise _ => False end -> returns r.
Proof.
  destruct r as [a | e]; [intros _; exists a; reflexivity | contradiction].
Qed.

Lemma init_validates_sample :
  init true_file prediction_file = Ok evaluator.
Proof.
  destruct (@init_validates libraries true_file prediction_file true_table prediction_table)
    as (_ & _ & H & _).
  - vm_compute. reflexivity.
  - vm_compute. reflexivity.
  - apply H. split; reflexivity.
Defined.

Lemma read_file_comma_then_tab_sample :
  read_file MoreExamples.tab_file_with_commas
  = Ok {| columns := ["id"; "answers"];
          rows := [[CStr "q1"; CStr "['a']"]; [CStr "q2"; CStr "['a', 'b']"]] |}.
Proof.
  destruct (@read_file_comma_then_tab libraries MoreExamples.tab_file_with_commas)
    as (_ & H & _).
  rewrite H; vm_compute; reflexivity.
Defined.

Lemma calculate_metrics_by_id_table_sample :
  exists out,
    calculate_metrics_by_id evaluator = Ok out
    /\ len out = 3
    /\ columns out = ["id"; "doc_class"; "question_type"; "answers";
                      "pred_answers"; "wer_error"; "cer_error"; "bleu_score"].
Proof.
  destruct (@calculate_metrics_by_id_table libraries evaluator)
    as (out & Hout & Hlen & Hcols & _).
  - reflexivity.
  - split; cbn; tauto.
  - intros row Hrow. apply returns_of_ok.
    destruct row as [| [| [| row]]]; [vm_compute; exact I .. |].
    cbn in Hrow. lia.
  - exists out. repeat split; assumption.
Defined.

(** C1 as the specification words it fails inside the loop, on pairs
    of one row that have all the columns of the input format, pass
    validation and whose answers decode.  On the first pair the
    reference answer is the empty string, for which jiwer's [wer] raises
    a [ValueError] (a rate over zero reference words is undefined).  On
    the second the answers are the literal 42, which decodes to an
    integer, and [len] on line 58 raises a [TypeError]. *)
Lemma by_id_fails_in_the_loop :
  (input_format (true_csv MoreExamples.empty_answer)
   /\ calculate_metrics_by_id MoreExamples.empty_answer
      = Raise (ValueError empty_reference)
   /\ ~ @decodable_pair_gets_table libraries MoreExamples.empty_answer)
  /\ (input_format (true_csv MoreExamples.integer_answer)
      /\ calculate_metrics_by_id MoreExamples.integer_answer = Raise TypeError
      /\ ~ @decodable_pair_gets_table libraries MoreExamples.integer_answer).
Proof.
  split; (split; [split; cbn; tauto |]); (split; [vm_compute; reflexivity |]);
    intros H; destruct H as (out & Hout & _);
    try reflexivity;
    try (intros row Hrow; cbn in Hrow; assert (row = 0) as -> by lia;
         split; apply returns_of_ok; vm_compute; exact I);
    vm_compute in Hout; discriminate.
Qed.

Lemma row_metrics_depend_on_row_answers_sample :
  exists m,
    by_id_row evaluator 1 = Ok m
    /\ by_id_row other_evaluator 1 = Ok m
    /\ last_cells 3 per_row 1 = Some (metric_cells m)
    /\ last_cells 3 (table_of (calculate_metrics_by_id other_evaluator)) 1
       = Some (metric_cells m).
Proof.
  apply (@row_metrics_depend_on_row_answers libraries evaluator other_evaluator).
  - vm_compute. reflexivity.
  - vm_compute. reflexivity.
  - cbn. lia.
  - cbn. lia.
  - vm_compute. reflexivity.
  - vm_compute. reflexivity.
Defined.

(** The failing input of C2: the reference answers of row 1 of the
    sample pair reach sacrebleu as its hypotheses, the predicted answers
    as its reference stream. *)
Lemma row_bleu_roles_sample :
  exists b,
    corpus_bleu {| hypotheses := PList [PStr "hello world"];
                   references := PList [PList [PStr "hello word"]] |} = Ok b
    /\ last_cells 1 per_row 1 = Some [CNum b].
Proof.
  destruct (by_id_row evaluator 1) as [m |] eqn:E; [| vm_compute in E; discriminate].
  exists (bleu_score m). split.
  - apply (@row_bleu_roles libraries evaluator 1); [vm_compute; reflexivity .. | exact E].
  - vm_compute in E. injection E as <-. vm_compute. reflexivity.
Defined.

(** On that input the roles the specification gives do not hold. *)
Lemma bleu_roles_swapped :
  ~ reference_in_references_role
      (PList [PStr "hello world"]) (PList [PStr "hello word"]).
Proof.
  intros [H _]. cbn in H. discriminate.
Qed.

Lemma general_equals_per_row_on_one_row_sample :
  calculate_metrics_general single = by_id_row single 0
  /\ exists g, calculate_metrics_general single = Ok g
               /\ last_cells 3 (table_of (calculate_metrics_by_id single)) 0
                  = Some (metric_cells g).
Proof.
  destruct (@general_equals_per_row_on_one_row libraries single
              [PStr "hello world"; PStr "cat"] [PStr "hello word"; PStr "cat"])
    as (Heq & Hout & _).
  - reflexivity.
  - reflexivity.
  - vm_compute. reflexivity.
  - vm_compute. reflexivity.
  - split; [exact Heq |]. apply Hout. vm_compute. reflexivity.
Defined.

(** C8 as the specification words it fails on the text [42]: it is no
    sequence of strings, and decoding it raises nothing. *)
Lemma integer_literal_decodes :
  ~ @decoding_fails_off_sequences libraries "42".
Proof.
  intros [_ H].
  assert (Hr : raises (@literal_eval_cell libraries (CStr "42"))).
  { apply H. intros [xs Hxs]. vm_compute in Hxs. destruct xs; discriminate. }
  destruct Hr as [e He]. vm_compute in He. discriminate.
Qed.

(** After decoding, the row fails in [len] with a [TypeError]. *)
Lemma integer_literal_fails_later :
  literal_eval_cell (CStr "42") = Ok (PInt 42)
  /\ py_len (PInt 42) = Raise TypeError.
Proof. split; reflexivity. Qed.

Lemma decode_failure_aborts_sample :
  raises (calculate_metrics_by_id undecodable).
Proof.
  apply (@decode_failure_aborts libraries undecodable 1 (CStr "cat dog")).
  - reflexivity.
  - left. reflexivity.
  - exists SyntaxError. reflexivity.
Defined.

(** The failing input of C7: the same content, written with tabs, is
    loaded as a table of one column, because the comma parse of a file
    without commas raises nothing. *)
Theorem tab_file_read_as_one_column :
  read_file comma_file
  = Ok {| columns := ["doc_class"; "answers"];
          rows := [[CStr "invoice"; CStr "['cat']"]] |}
  /\ (exists label field,
        read_file tab_file = Ok {| columns := [label]; rows := [[CStr field]] |})
  /\ fst (read_file_attempts tab_file) = [comma]
  /\ read_file comma_file <> read_file tab_file.
Proof.
  split; [| split; [| split]].
  - vm_compute. reflexivity.
  - exists (String.concat (String tab EmptyString) ["doc_class"; "answers"]),
           (String.concat (String tab EmptyString) ["invoice"; "['cat']"]).
    vm_compute. reflexivity.
  - vm_compute. reflexivity.
  - vm_compute. discriminate.
Qed.


(** The classes of the sample table: two rows of invoices, then one
    receipt. *)
Example by_doc_type_sample_classes :
  value_counts_index doc_classes = [CStr "invoice"; CStr "receipt"].
Proof. vm_compute. reflexivity. Qed.

(** Equally frequent classes keep the order in which they are first
    seen. *)
Example value_counts_ties :
  value_counts_index [CStr "b"; CStr "a"; CStr "c"; CNaN; CStr "a"; CStr "b"]
  = [CStr "b"; CStr "a"; CStr "c"].
Proof. vm_compute. reflexivity. Qed.

Example group_by_before_2_0_sample :
  exists keys,
    group_by_doc_question before_2_0 per_row
    = Ok {| columns := ["doc_class"; "question_type";
                        "wer_error"; "cer_error"; "bleu_score"];
            rows := map (fun k => [fst k; snd k;
                                   CNum (average (key_values doc_classes question_types wers k));
                                   CNum (average (key_values doc_classes question_types cers k));
                                   CNum (average (key_values doc_classes question_types bleus k))])
                        keys |}
    /\ NoDup keys
    /\ (forall k, In k keys
                  <-> In k (combine doc_classes question_types)
                      /\ fst k <> CNaN /\ snd k <> CNaN)
    /\ StronglySorted key_lt keys.
Proof.
  apply (@group_by_means_before_2_0 per_row doc_classes question_types wers cers bleus);
    vm_compute; reflexivity.
Qed.

(** The failing input of C9: the per-row table of the sample pair, on
    pandas from 2.0 on. *)
Lemma group_by_refuses_tuple_sample :
  group_by_doc_question since_2_0 per_row = Raise (ValueError tuple_of_labels).
Proof.
  apply (@group_by_refuses_tuple per_row); vm_compute; tauto.
Defined.

Example group_by_sample_keys :
  group_keys doc_classes question_types
  = [ (CStr "invoice", CStr "date");
      (CStr "invoice", CStr "total");
      (CStr "receipt", CStr "date") ].
Proof. vm_compute. reflexivity. Qed.

End OnSampleData.

(** * Further properties *)

(** ** When the per-row computation returns, and how it fails *)

Section PerRowOutcome.

Context {L : Libraries}.

Lemma seq_split (n row : nat) :
  row < n -> seq 0 n = seq 0 row ++ row :: seq (S row) (n - S row).
Proof.
  intros H. replace n with (row + S (n - S row)) at 1 by lia.
  rewrite seq_app. reflexivity.
Qed.

Lemma by_id_loop_first_error self pre row post wl cl bl e :
  (forall r, In r pre -> returns (by_id_row self r)) ->
  by_id_row self row = Raise e ->
  by_id_loop self (pre ++ row :: post) wl cl bl = Raise e.
Proof.
  revert wl cl bl. induction pre as [| r pre IH]; intros wl cl bl Hpre Hrow; cbn.
  - rewrite Hrow. reflexivity.
  - destruct (Hpre r (or_introl eq_refl)) as [m Hm]. rewrite Hm. cbn [bind].
    apply IH; [| exact Hrow]. intros r' Hr'. apply Hpre. now right.
Qed.

(** X1.  [calculate_metrics_by_id] returns a table exactly when the
    reference table has the column [answear_bbox], the loop body
    completes on every row, the prediction table has the column
    [answers], and the two tables have the same number of rows. *)
Theorem by_id_returns_iff (self : MetricEvaluator) :
  returns (calculate_metrics_by_id self)
  <-> In "answear_bbox" (columns (true_csv self))
      /\ (forall row, row < len (true_csv self) -> returns (by_id_row self row))
      /\ In "answers" (columns (pred_csv self))
      /\ len (pred_csv self) = len (true_csv self).
Proof.
  split.
  - intros [out Hout].
    apply calculate_metrics_by_id_inv in Hout as (ms & pcol & Hb & Hms & Hp & Hlen & _).
    repeat split.
    + exact Hb.
    + intros row Hrow. destruct (row_results_nth Hms Hrow) as (m & _ & Hm).
      exists m. exact Hm.
    + eapply getitem_In. exact Hp.
    + rewrite <- Hlen. symmetry. eapply getitem_length. exact Hp.
  - intros (Hb & Hrows & Hans & Hlen).
    destruct (@row_results_exist _ self (seq 0 (len (true_csv self)))) as [ms Hms].
    { intros row Hin. apply Hrows. apply in_seq in Hin. lia. }
    destruct (getitem_ok _ _ Hans) as (pcol & Hp & Hl). rewrite Hlen in Hl.
    eexists. apply (calculate_metrics_by_id_ok Hb Hms Hp Hl).
Qed.

(** X2.  When the reference table has the column [answear_bbox], the
    error of the first row on which the loop body fails is the error of
    [calculate_metrics_by_id]: the rows after it are not looked at. *)
Theorem by_id_first_error (self : MetricEvaluator) (row : nat) (e : exn) :
  In "answear_bbox" (columns (true_csv self)) ->
  row < len (true_csv self) ->
  (forall r, r < row -> returns (by_id_row self r)) ->
  by_id_row self row = Raise e ->
  calculate_metrics_by_id self = Raise e.
Proof.
  intros Hb Hrow Hbefore He. unfold calculate_metrics_by_id.
  rewrite (drop_ok _ _ Hb). cbn [bind]. rewrite (seq_split Hrow).
  rewrite (@by_id_loop_first_error self (seq 0 row) row _ [] [] [] e); [reflexivity | | exact He].
  intros r Hr. apply Hbefore. apply in_seq in Hr. lia.
Qed.

(** X3.  Without the column [answear_bbox] in the reference table,
    [calculate_metrics_by_id] raises the [KeyError] of that label,
    whatever the rows hold: no answer is decoded before. *)
Theorem by_id_missing_bbox (self : MetricEvaluator) :
  ~ In "answear_bbox" (columns (true_csv self)) ->
  calculate_metrics_by_id self = Raise (KeyError "answear_bbox").
Proof.
  intros H. unfold calculate_metrics_by_id. now rewrite (drop_raises _ _ H).
Qed.

(** X4.  A table [calculate_metrics_by_id] returns has no column
    [answear_bbox]; its labels are the other labels of the reference
    table and the four derived ones. *)
Theorem by_id_labels (self : MetricEvaluator) (out : DataFrame) :
  calculate_metrics_by_id self = Ok out ->
  ~ In "answear_bbox" (columns out)
  /\ forall label,
       In label (columns out)
       <-> (In label (columns (true_csv self)) /\ label <> "answear_bbox")
           \/ In label derived_labels.
Proof.
  intros H. apply calculate_metrics_by_id_inv in H as (ms & pcol & _ & _ & _ & _ & ->).
  assert (Hl : forall label,
             In label (columns (per_row_table (true_csv self) pcol ms))
             <-> (In label (columns (true_csv self)) /\ label <> "answear_bbox")
                 \/ In label derived_labels).
  { intros label. unfold per_row_table, concat. cbn [columns].
    rewrite in_app_iff, filter_In, negb_true_iff.
    destruct (String.eqb_spec "answear_bbox" label) as [<- | Hne].
    - split; [intros [[_ ?] | ?]; [discriminate | now right] |].
      intros [[_ ?] | ?]; [congruence | now right].
    - split; (intros [[? _] | ?]; [left; split; [assumption | congruence] | now right]). }
  split; [| exact Hl].
  intros Hin. apply Hl in Hin as [[_ Hne] | Hin]; [congruence |].
  cbn in Hin. repeat destruct Hin as [Hin | Hin]; try discriminate. exact Hin.
Qed.

(** X5.  The error rates of a row are jiwer's for the decoded
    reference answers as reference and the decoded predicted answers as
    hypothesis, the WER and the CER alike. *)
Theorem row_error_rate_roles (self : MetricEvaluator) (row : nat)
    (Y_true y_pred : pyval) (m : general_metrics) :
  answers_at (true_csv self) row = Ok Y_true ->
  answers_at (pred_csv self) row = Ok y_pred ->
  by_id_row self row = Ok m ->
  wer Y_true y_pred = Ok (wer_error m) /\ cer Y_true y_pred = Ok (cer_error m).
Proof.
  intros Ht Hp H. apply by_id_row_ok_inv in H as (Y & y & HY & Hy & Hs).
  assert (Y = Y_true) as -> by congruence. assert (y = y_pred) as -> by congruence.
  unfold score in Hs.
  destruct (wer Y_true y_pred); cbn [bind] in Hs; [| discriminate].
  destruct (cer Y_true y_pred); cbn [bind] in Hs; [| discriminate].
  destruct (corpus_bleu _); cbn [bind] in Hs; [| discriminate].
  injection Hs as <-. split; reflexivity.
Qed.

(** X6.  On tables without rows [calculate_metrics_general] still calls
    the three metric routines, on two empty lists, and needs no column;
    [calculate_metrics_by_id] calls none and returns the table of the
    remaining and derived columns without rows, provided the columns
    [answear_bbox] and [answers] are there. *)
Theorem on_tables_without_rows (self : MetricEvaluator) :
  len (true_csv self) = 0 ->
  calculate_metrics_general self = score (PList []) (PList [])
  /\ (In "answear_bbox" (columns (true_csv self)) ->
      In "answers" (columns (pred_csv self)) ->
      len (pred_csv self) = 0 ->
      calculate_metrics_by_id self
      = Ok {| columns := filter (fun c => negb (String.eqb "answear_bbox" c))
                                (columns (true_csv self)) ++ derived_labels;
              rows := [] |}).
Proof.
  intros Hn. split.
  - unfold calculate_metrics_general. rewrite Hn. reflexivity.
  - intros Hb Hans Hp.
    destruct (getitem_ok _ _ Hans) as (pcol & Hg & Hl). rewrite Hp in Hl.
    destruct pcol; [| discriminate].
    assert (Hms : row_results self (seq 0 (len (true_csv self))) [])
      by (rewrite Hn; constructor).
    rewrite (calculate_metrics_by_id_ok Hb Hms Hg); [| now rewrite Hn].
    unfold per_row_table, concat. cbn [columns rows List.length seq map].
    unfold len in Hn. apply length_zero_iff_nil in Hn. rewrite Hn. reflexivity.
Qed.

End PerRowOutcome.

(** ** The corpus metrics *)

Section General.

Context {L : Libraries}.

Lemma items_at_inv (df : DataFrame) (row : nat) (xs : list pyval) :
  items_at df row = Ok xs ->
  exists v, answers_at df row = Ok v /\ py_iter v = Ok xs.
Proof.
  unfold items_at. destruct (answers_at df row) as [v |]; [| discriminate].
  cbn [bind]. eauto.
Qed.

Lemma general_loop_pools self todo xss yss ta pa :
  Forall2 (fun row xs => items_at (true_csv self) row = Ok xs) todo xss ->
  Forall2 (fun row ys => items_at (pred_csv self) row = Ok ys) todo yss ->
  general_loop self todo ta pa = Ok (ta ++ List.concat xss, pa ++ List.concat yss).
Proof.
  intros Hx. revert yss ta pa.
  induction Hx as [| row xs todo xss Hrow _ IH]; intros yss ta pa Hy;
    inversion Hy as [| row' ys todo' yss' Hrow' Hy']; subst; cbn.
  - now rewrite !app_nil_r.
  - apply items_at_inv in Hrow as (t & Ht & Hxs).
    apply items_at_inv in Hrow' as (p & Hp & Hys).
    rewrite Ht. cbn [bind]. rewrite Hxs. cbn [bind].
    rewrite Hp. cbn [bind]. rewrite Hys. cbn [bind].
    rewrite (IH _ _ _ Hy'), <- !app_assoc. reflexivity.
Qed.

(** X7.  When the answers of every row iterate to the items [xss] (of
    the reference) and [yss] (of the predictions), row by row,
    [calculate_metrics_general] scores once, on the concatenation of
    all of [xss] against the concatenation of all of [yss], in row
    order. *)
Theorem general_pools_rows (self : MetricEvaluator) (xss yss : list (list pyval)) :
  Forall2 (fun row xs => items_at (true_csv self) row = Ok xs)
          (seq 0 (len (true_csv self))) xss ->
  Forall2 (fun row ys => items_at (pred_csv self) row = Ok ys)
          (seq 0 (len (true_csv self))) yss ->
  calculate_metrics_general self
  = score (PList (List.concat xss)) (PList (List.concat yss)).
Proof.
  intros Hx Hy. unfold calculate_metrics_general.
  rewrite (@general_loop_pools self _ xss yss [] [] Hx Hy). reflexivity.
Qed.

Lemma answers_at_column (df df' : DataFrame) (row : nat) :
  getitem df "answers" = getitem df' "answers" ->
  answers_at df row = answers_at df' row.
Proof.
  intros H. unfold answers_at. now rewrite H.
Qed.

Lemma general_loop_ext self self' todo ta pa :
  (forall row, answers_at (true_csv self) row = answers_at (true_csv self') row) ->
  (forall row, answers_at (pred_csv self) row = answers_at (pred_csv self') row) ->
  general_loop self todo ta pa = general_loop self' todo ta pa.
Proof.
  intros Ht Hp. revert ta pa. induction todo as [| row todo IH]; intros ta pa; cbn.
  - reflexivity.
  - rewrite Ht, Hp.
    destruct (answers_at (true_csv self') row) as [t |]; [| reflexivity].
    cbn [bind]. destruct (py_iter t); [| reflexivity]. cbn [bind].
    destruct (answers_at (pred_csv self') row) as [p |]; [| reflexivity].
    cbn [bind]. destruct (py_iter p); [| reflexivity]. cbn [bind]. apply IH.
Qed.

(** X8.  [calculate_metrics_general] reads the number of rows of the
    reference table and the two [answers] columns, nothing else: two
    pairs that agree on these get the same result, values and errors
    alike, whatever their other columns and whether or not they would
    pass validation. *)
Theorem general_reads_only_answers (self self' : MetricEvaluator) :
  len (true_csv self) = len (true_csv self') ->
  getitem (true_csv self) "answers" = getitem (true_csv self') "answers" ->
  getitem (pred_csv self) "answers" = getitem (pred_csv self') "answers" ->
  calculate_metrics_general self = calculate_metrics_general self'.
Proof.
  intros Hn Ht Hp. unfold calculate_metrics_general. rewrite Hn.
  rewrite (@general_loop_ext self self'); [reflexivity | |];
    intros row; now apply answers_at_column.
Qed.

(** X9.  In [calculate_metrics_general] the pooled reference answers
    are jiwer's reference for the WER and the CER, and sacrebleu's
    HYPOTHESES for the BLEU score, with the pooled predictions as its
    single reference stream: the call has the argument order of the
    per-row one. *)
Theorem general_roles (self : MetricEvaluator) (g : general_metrics) :
  calculate_metrics_general self = Ok g ->
  exists true_answers pred_answers,
    general_loop self (seq 0 (len (true_csv self))) [] [] = Ok (true_answers, pred_answers)
    /\ wer (PList true_answers) (PList pred_answers) = Ok (wer_error g)
    /\ cer (PList true_answers) (PList pred_answers) = Ok (cer_error g)
    /\ corpus_bleu {| hypotheses := PList true_answers;
                      references := PList [PList pred_answers] |}
       = Ok (bleu_score g).
Proof.
  unfold calculate_metrics_general. intros H.
  destruct (general_loop self _ [] []) as [[ta pa] |]; [| discriminate].
  cbn [bind] in H. exists ta, pa. split; [reflexivity |].
  unfold score, bleu_arguments in H.
  destruct (wer _ _); cbn [bind] in H; [| discriminate].
  destruct (cer _ _); cbn [bind] in H; [| discriminate].
  destruct (corpus_bleu _); cbn [bind] in H; [| discriminate].
  injection H as <-. repeat split; reflexivity.
Qed.

End General.

(** ** Construction *)

Section Construction.

Context {L : Libraries}.

(** X10.  An evaluator that [MetricEvaluator(...)] builds holds the two
    tables as [read_file] loads them, and these have the same column
    labels in the same order and the same number of rows. *)
Theorem init_invariant (true_file prediction_file : string) (self : MetricEvaluator) :
  init true_file prediction_file = Ok self ->
  read_file true_file = Ok (true_csv self)
  /\ read_file prediction_file = Ok (pred_csv self)
  /\ columns (true_csv self) = columns (pred_csv self)
  /\ len (true_csv self) = len (pred_csv self)
  /\ validate_data self = Ok tt.
Proof.
  unfold init. intros H.
  destruct (read_file true_file) as [t |]; [| discriminate].
  destruct (read_file prediction_file) as [p |]; [| discriminate].
  cbn [bind] in H.
  destruct (validate_data_cases {| true_csv := t; pred_csv := p |})
    as [[_ E] | [(_ & _ & E) | (Hc & Hn & E)]]; rewrite E in H; cbn [bind] in H;
    try discriminate.
  injection H as <-. cbn [true_csv pred_csv] in *. auto.
Qed.

(** X11.  Validation does not depend on which table is the reference:
    exchanging the two tables gives the same outcome. *)
Theorem validate_data_symmetric (t p : DataFrame) :
  validate_data {| true_csv := t; pred_csv := p |}
  = validate_data {| true_csv := p; pred_csv := t |}.
Proof.
  unfold validate_data. cbn [true_csv pred_csv].
  destruct (list_eq_dec string_dec (columns t) (columns p)) as [E | E];
    destruct (list_eq_dec string_dec (columns p) (columns t)) as [E' | E'];
    try congruence.
  now rewrite Nat.eqb_sym.
Qed.

End Construction.

(** ** The columns of the per-row table *)

Section PerRowColumns.

Context {L : Libraries}.

Lemma index_of_app_l (label : string) (l1 l2 : list string) (i : nat) :
  index_of label l1 = Some i -> index_of label (l1 ++ l2) = Some i.
Proof.
  revert i. induction l1 as [| c l1 IH]; intros i H; cbn in *; [discriminate |].
  destruct (String.eqb label c); [exact H |].
  destruct (index_of label l1) as [j |]; [| discriminate].
  now rewrite (IH j eq_refl).
Qed.

Lemma index_of_app_r (label : string) (l1 l2 : list string) (i : nat) :
  ~ In label l1 -> index_of label l2 = Some i ->
  index_of label (l1 ++ l2) = Some (List.length l1 + i).
Proof.
  intros Hn H. induction l1 as [| c l1 IH]; cbn in *; [exact H |].
  destruct (String.eqb_spec label c) as [-> | Hne]; [tauto |].
  rewrite IH by tauto. reflexivity.
Qed.

Lemma without_length {A B : Type} (label : string) (labels : list string)
    (l : list A) (l' : list B) :
  List.length l = List.length labels -> List.length l' = List.length labels ->
  List.length (without label labels l) = List.length (without label labels l').
Proof.
  revert l l'. induction labels as [| c labels IH]; intros [| x l] [| y l'] H H';
    cbn in *; try discriminate; [reflexivity |].
  destruct (String.eqb label c); cbn; [| f_equal]; apply IH; lia.
Qed.

(** A column other than the dropped one is found again after the drop,
    with the same cells. *)
Lemma without_index (bbox label : string) (labels : list string) (r : list cell) (i : nat) :
  label <> bbox -> List.length r = List.length labels ->
  index_of label labels = Some i ->
  exists j, index_of label (without bbox labels labels) = Some j
            /\ j < List.length (without bbox labels r)
            /\ nth j (without bbox labels r) CNaN = nth i r CNaN.
Proof.
  intros Hne. revert r i.
  induction labels as [| c labels IH]; intros [| x r] i Hlen Hi; cbn in *;
    try discriminate.
  destruct (String.eqb_spec label c) as [<- | Hlc].
  - injection Hi as <-.
    destruct (String.eqb_spec bbox label) as [-> | _]; [congruence |].
    exists 0. cbn. rewrite String.eqb_refl. repeat split. lia.
  - destruct (index_of label labels) as [i' |] eqn:Ei; [| discriminate].
    injection Hi as <-.
    destruct (IH r i' ltac:(lia) eq_refl) as (j & Hj & Hlt & Hnth).
    destruct (String.eqb bbox c).
    + exists j. auto.
    + exists (S j). cbn. destruct (String.eqb_spec label c); [congruence |].
      rewrite Hj. repeat split; [lia | exact Hnth].
Qed.

Lemma column_ext {A B : Type} (f : A -> cell) (g : B -> cell) (l : list A) (l' : list B) :
  List.length l = List.length l' ->
  (forall i x y, nth_error l i = Some x -> nth_error l' i = Some y -> f x = g y) ->
  map f l = map g l'.
Proof.
  revert l'. induction l as [| x l IH]; intros [| y l'] Hlen H; cbn in *;
    try discriminate; [reflexivity |].
  f_equal; [apply (H 0); reflexivity |].
  apply IH; [lia |]. intros i. apply (H (S i)).
Qed.

Lemma per_row_table_row_inv t pcol ms row x :
  List.length pcol = len t -> List.length ms = len t ->
  nth_error (rows (per_row_table t pcol ms)) row = Some x ->
  exists r pa m,
    nth_error (rows t) row = Some r /\ nth_error pcol row = Some pa
    /\ nth_error ms row = Some m
    /\ x = without "answear_bbox" (columns t) r ++ pa :: metric_cells m.
Proof.
  intros Hp Hm Hx.
  assert (Hlt : row < len t).
  { rewrite <- (@per_row_table_len t pcol ms Hp). apply nth_error_Some. congruence. }
  destruct (nth_error (rows t) row) as [r |] eqn:Er.
  2:{ apply nth_error_None in Er. unfold len in Hlt. lia. }
  destruct (nth_error pcol row) as [pa |] eqn:Epa.
  2:{ apply nth_error_None in Epa. lia. }
  destruct (nth_error ms row) as [m |] eqn:Em.
  2:{ apply nth_error_None in Em. lia. }
  exists r, pa, m. repeat split.
  rewrite (@per_row_table_row t pcol ms row r pa m Hp Er Epa Em) in Hx. congruence.
Qed.

(** The columns the per-row table keeps from the reference table. *)
Lemma per_row_table_kept t pcol ms label :
  List.length pcol = len t -> List.length ms = len t ->
  rectangular t -> In label (columns t) -> label <> "answear_bbox" ->
  getitem (per_row_table t pcol ms) label = getitem t label.
Proof.
  intros Hp Hm Hrect Hin Hne.
  apply index_of_In in Hin as [i Hi]. unfold getitem at 2. rewrite Hi.
  assert (Hj : exists j, index_of label (columns (per_row_table t pcol ms)) = Some j
                         /\ forall r, In r (rows t) ->
                              j < List.length (without "answear_bbox" (columns t) r)
                              /\ nth j (without "answear_bbox" (columns t) r) CNaN
                                 = nth i r CNaN).
  { unfold per_row_table, concat. cbn [columns]. rewrite <- without_labels.
    destruct (rows t) as [| r0 rs] eqn:Er.
    - destruct (@without_index "answear_bbox" label (columns t)
                  (repeat CNaN (List.length (columns t))) i Hne
                  (repeat_length _ _) Hi) as (j & Hj & _).
      exists j. split; [now apply index_of_app_l | intros r []].
    - unfold rectangular in Hrect. rewrite Er in Hrect. rewrite Forall_forall in Hrect.
      destruct (@without_index "answear_bbox" label (columns t) r0 i Hne
                  (Hrect r0 (or_introl eq_refl)) Hi) as (j & Hj & _).
      exists j. split; [now apply index_of_app_l |].
      intros r Hr.
      destruct (@without_index "answear_bbox" label (columns t) r i Hne (Hrect r Hr) Hi)
        as (j' & Hj' & Hlt & Hnth).
      assert (j' = j) as -> by congruence. auto. }
  destruct Hj as (j & Hj & Hrows). unfold getitem. rewrite Hj. f_equal.
  apply column_ext.
  - apply (@per_row_table_len t pcol ms Hp).
  - intros row x r Hx Hr.
    apply (@per_row_table_row_inv t pcol ms row x Hp Hm) in Hx
      as (r' & pa & m & Hr' & _ & _ & ->).
    assert (r' = r) as -> by congruence.
    destruct (Hrows r (nth_error_In _ _ Hr)) as [Hlt Hnth].
    rewrite app_nth1 by exact Hlt. exact Hnth.
Qed.

(** The four columns the per-row table adds. *)
Lemma per_row_table_derived t pcol ms :
  List.length pcol = len t -> List.length ms = len t ->
  rectangular t ->
  (forall label, In label derived_labels -> ~ In label (columns t)) ->
  getitem (per_row_table t pcol ms) "pred_answers" = Ok pcol
  /\ getitem (per_row_table t pcol ms) "wer_error" = Ok (map CNum (map wer_error ms))
  /\ getitem (per_row_table t pcol ms) "cer_error" = Ok (map CNum (map cer_error ms))
  /\ getitem (per_row_table t pcol ms) "bleu_score" = Ok (map CNum (map bleu_score ms)).
Proof.
  intros Hp Hm Hrect Hfresh.
  set (kept := filter (fun c => negb (String.eqb "answear_bbox" c)) (columns t)).
  assert (Hidx : forall label k,
             index_of label derived_labels = Some k ->
             index_of label (columns (per_row_table t pcol ms))
             = Some (List.length kept + k)).
  { intros label k Hk. unfold per_row_table, concat. cbn [columns].
    apply index_of_app_r; [| exact Hk].
    intros Hin. apply filter_In in Hin as [Hin _].
    apply (Hfresh label); [| exact Hin]. apply index_of_In. eauto. }
  assert (Hcell : forall row x r pa m,
             nth_error (rows (per_row_table t pcol ms)) row = Some x ->
             nth_error (rows t) row = Some r -> nth_error pcol row = Some pa ->
             nth_error ms row = Some m ->
             forall k, nth (List.length kept + k) x CNaN
                       = nth k (pa :: metric_cells m) CNaN).
  { intros row x r pa m Hx Hr Hpa Hmm k.
    rewrite (@per_row_table_row t pcol ms row r pa m Hp Hr Hpa Hmm) in Hx. injection Hx as <-.
    assert (Hw : List.length (without "answear_bbox" (columns t) r) = List.length kept).
    { unfold kept. rewrite <- without_labels. apply without_length; [| reflexivity].
      unfold rectangular in Hrect. rewrite Forall_forall in Hrect.
      apply Hrect. eapply nth_error_In. exact Hr. }
    rewrite <- Hw. apply app_nth2_plus. }
  assert (Hlen : len (per_row_table t pcol ms) = len t)
    by apply (@per_row_table_len t pcol ms Hp).
  unfold getitem.
  rewrite (Hidx "pred_answers" 0 eq_refl), (Hidx "wer_error" 1 eq_refl),
    (Hidx "cer_error" 2 eq_refl), (Hidx "bleu_score" 3 eq_refl).
  repeat split; f_equal.
  - rewrite <- (map_id pcol) at 2. apply column_ext; [unfold len in *; lia |].
    intros row x pa Hx Hpa.
    destruct (@per_row_table_row_inv t pcol ms row x Hp Hm Hx)
      as (r & pa' & m & Hr & Hpa' & Hmm & _).
    rewrite (Hcell row x r pa' m Hx Hr Hpa' Hmm 0). cbn. congruence.
  - rewrite map_map. apply column_ext; [unfold len in *; lia |].
    intros row x m Hx Hmm.
    destruct (@per_row_table_row_inv t pcol ms row x Hp Hm Hx)
      as (r & pa & m' & Hr & Hpa & Hmm' & _).
    rewrite (Hcell row x r pa m' Hx Hr Hpa Hmm' 1). cbn. congruence.
  - rewrite map_map. apply column_ext; [unfold len in *; lia |].
    intros row x m Hx Hmm.
    destruct (@per_row_table_row_inv t pcol ms row x Hp Hm Hx)
      as (r & pa & m' & Hr & Hpa & Hmm' & _).
    rewrite (Hcell row x r pa m' Hx Hr Hpa Hmm' 2). cbn. congruence.
  - rewrite map_map. apply column_ext; [unfold len in *; lia |].
    intros row x m Hx Hmm.
    destruct (@per_row_table_row_inv t pcol ms row x Hp Hm Hx)
      as (r & pa & m' & Hr & Hpa & Hmm' & _).
    rewrite (Hcell row x r pa m' Hx Hr Hpa Hmm' 3). cbn. congruence.
Qed.

Lemma row_results_length self n ms :
  row_results self (seq 0 n) ms -> List.length ms = n.
Proof.
  intros H. apply Forall2_length in H. now rewrite length_seq in H.
Qed.

(** X12.  The table [calculate_metrics_by_id] returns keeps every column
    of a rectangular reference table as it is, except [answear_bbox] and
    the columns labelled like a derived column (their label is twice in
    the table returned): selected by its label, a kept column holds the
    same cells in the same rows. *)
Theorem by_id_keeps_columns (self : MetricEvaluator) (out : DataFrame) (label : string) :
  calculate_metrics_by_id self = Ok out ->
  rectangular (true_csv self) ->
  In label (columns (true_csv self)) ->
  label <> "answear_bbox" ->
  ~ In label derived_labels ->
  getitem out label = getitem (true_csv self) label.
Proof.
  intros H Hrect Hin Hne _.
  apply calculate_metrics_by_id_inv in H as (ms & pcol & _ & Hms & _ & Hlen & ->).
  apply per_row_table_kept; try assumption.
  now apply row_results_length in Hms.
Qed.

(** X13.  When no column of a rectangular reference table bears the
    label of a derived column, the table [calculate_metrics_by_id]
    returns has, under [pred_answers], the [answers] column of the
    predictions as text, not decoded, and, under [wer_error],
    [cer_error] and [bleu_score], the metrics of the rows in row
    order. *)
Theorem by_id_derived_columns (self : MetricEvaluator) (out : DataFrame) :
  calculate_metrics_by_id self = Ok out ->
  rectangular (true_csv self) ->
  (forall label, In label derived_labels -> ~ In label (columns (true_csv self))) ->
  exists ms,
    row_results self (seq 0 (len (true_csv self))) ms
    /\ getitem out "pred_answers" = getitem (pred_csv self) "answers"
    /\ getitem out "wer_error" = Ok (map CNum (map wer_error ms))
    /\ getitem out "cer_error" = Ok (map CNum (map cer_error ms))
    /\ getitem out "bleu_score" = Ok (map CNum (map bleu_score ms)).
Proof.
  intros H Hrect Hfresh.
  apply calculate_metrics_by_id_inv in H as (ms & pcol & _ & Hms & Hp & Hlen & ->).
  exists ms. split; [exact Hms |]. rewrite Hp.
  apply per_row_table_derived; try assumption.
  now apply row_results_length in Hms.
Qed.

End PerRowColumns.

(** ** Aggregating the per-row table *)

Section AggregationOutcome.

Context {L : Libraries}.

Lemma by_doc_type_ok (df : DataFrame) (dc : list cell) (ws cs bs : list Qc) :
  getitem df "doc_class" = Ok dc ->
  getitem df "wer_error" = Ok (map CNum ws) ->
  getitem df "cer_error" = Ok (map CNum cs) ->
  getitem df "bleu_score" = Ok (map CNum bs) ->
  calculate_metrics_by_doc_type df
  = Ok {| columns := ["doc_class"; "wer_error"; "cer_error"; "bleu_score"];
          rows := map (fun c => [c;
                                 CNum (average (class_values dc ws c));
                                 CNum (average (class_values dc cs c));
                                 CNum (average (class_values dc bs c))])
                      (value_counts_index dc) |}.
Proof.
  intros Hdc Hw Hc Hb.
  destruct (value_counts_index_spec dc) as (_ & Hin & _).
  unfold calculate_metrics_by_doc_type. rewrite Hdc. cbn [bind].
  rewrite (@by_doc_type_loop_ok df
             (fun c => CNum (average (class_values dc ws c)))
             (fun c => CNum (average (class_values dc cs c)))
             (fun c => CNum (average (class_values dc bs c)))).
  - cbn [bind app]. apply from_columns_rows.
  - intros c Hcin. apply Hin in Hcin as [Hcin Hna].
    repeat split; eapply class_mean_ok; eassumption.
Qed.

Lemma group_by_ok (df : DataFrame) (dc qt : list cell) (ws cs bs : list Qc) :
  getitem df "doc_class" = Ok dc ->
  getitem df "question_type" = Ok qt ->
  getitem df "wer_error" = Ok (map CNum ws) ->
  getitem df "cer_error" = Ok (map CNum cs) ->
  getitem df "bleu_score" = Ok (map CNum bs) ->
  group_by_doc_question before_2_0 df
  = Ok {| columns := ["doc_class"; "question_type";
                      "wer_error"; "cer_error"; "bleu_score"];
          rows := map (fun k => [fst k; snd k;
                                 CNum (average (key_values dc qt ws k));
                                 CNum (average (key_values dc qt cs k));
                                 CNum (average (key_values dc qt bs k))])
                      (group_keys dc qt) |}.
Proof.
  intros Hdc Hqt Hw Hc Hb.
  destruct (group_keys_spec dc qt) as (_ & Hin).
  assert (Hlen : forall xs label, getitem df label = Ok (map CNum xs) ->
                   List.length xs = List.length (combine dc qt)).
  { intros xs label H. apply getitem_length in H, Hdc, Hqt.
    rewrite length_map in H. rewrite length_combine. lia. }
  unfold group_by_doc_question. rewrite Hdc, Hqt, Hw, Hc, Hb. cbn [bind].
  cbn [filter snd]. rewrite !holds_text_numbers. cbn [negb map fst app].
  do 2 f_equal. apply map_ext_in.
  intros k Hk. apply Hin in Hk as (Hk & H1 & H2). cbn [snd map app].
  rewrite !group_mean_ok by eauto. reflexivity.
Qed.

(** X14.  The two functions compose: on the table that
    [calculate_metrics_by_id] returns for a rectangular reference table
    with a [doc_class] column and no column labelled like a derived
    one, [calculate_metrics_by_doc_type] returns, for each class of the
    REFERENCE table in the order of its value counts, the means of the
    metrics of the rows of that class. *)
Theorem by_doc_type_after_by_id (self : MetricEvaluator) (out : DataFrame) :
  calculate_metrics_by_id self = Ok out ->
  rectangular (true_csv self) ->
  (forall label, In label derived_labels -> ~ In label (columns (true_csv self))) ->
  In "doc_class" (columns (true_csv self)) ->
  exists dc ms,
    getitem (true_csv self) "doc_class" = Ok dc
    /\ row_results self (seq 0 (len (true_csv self))) ms
    /\ calculate_metrics_by_doc_type out
       = Ok {| columns := ["doc_class"; "wer_error"; "cer_error"; "bleu_score"];
               rows := map (fun c =>
                         [c;
                          CNum (average (class_values dc (map wer_error ms) c));
                          CNum (average (class_values dc (map cer_error ms) c));
                          CNum (average (class_values dc (map bleu_score ms) c))])
                       (value_counts_index dc) |}.
Proof.
  intros H Hrect Hfresh Hin.
  apply calculate_metrics_by_id_inv in H as (ms & pcol & _ & Hms & _ & Hlen & ->).
  pose proof (@row_results_length _ self _ ms Hms) as Hm.
  destruct (getitem_ok _ _ Hin) as (dc & Hdc & _).
  destruct (@per_row_table_derived (true_csv self) pcol ms Hlen Hm Hrect Hfresh)
    as (_ & Hw & Hc & Hb).
  exists dc, ms. repeat split; try assumption.
  apply by_doc_type_ok; try assumption.
  rewrite <- Hdc. apply per_row_table_kept; try assumption. discriminate.
Qed.

(** X15.  On the table that [calculate_metrics_by_id] returns for a
    rectangular reference table with the columns [doc_class] and
    [question_type] and no column labelled like a derived one,
    [group_by_doc_question] raises the [ValueError] of the tuple
    subscript on pandas from 2.0 on; on pandas before 2.0 it returns,
    for each pair of the reference table in ascending order, the means
    of the metrics of the rows of that pair. *)
Theorem group_by_after_by_id (self : MetricEvaluator) (out : DataFrame) :
  calculate_metrics_by_id self = Ok out ->
  rectangular (true_csv self) ->
  (forall label, In label derived_labels -> ~ In label (columns (true_csv self))) ->
  In "doc_class" (columns (true_csv self)) ->
  In "question_type" (columns (true_csv self)) ->
  group_by_doc_question since_2_0 out = Raise (ValueError tuple_of_labels)
  /\ exists dc qt ms,
       getitem (true_csv self) "doc_class" = Ok dc
       /\ getitem (true_csv self) "question_type" = Ok qt
       /\ row_results self (seq 0 (len (true_csv self))) ms
       /\ group_by_doc_question before_2_0 out
          = Ok {| columns := ["doc_class"; "question_type";
                              "wer_error"; "cer_error"; "bleu_score"];
                  rows := map (fun k =>
                            [fst k; snd k;
                             CNum (average (key_values dc qt (map wer_error ms) k));
                             CNum (average (key_values dc qt (map cer_error ms) k));
                             CNum (average (key_values dc qt (map bleu_score ms) k))])
                          (group_keys dc qt) |}.
Proof.
  intros H Hrect Hfresh Hin Hin'.
  apply calculate_metrics_by_id_inv in H as (ms & pcol & _ & Hms & _ & Hlen & ->).
  pose proof (@row_results_length _ self _ ms Hms) as Hm.
  destruct (getitem_ok _ _ Hin) as (dc & Hdc & _).
  destruct (getitem_ok _ _ Hin') as (qt & Hqt & _).
  destruct (@per_row_table_derived (true_csv self) pcol ms Hlen Hm Hrect Hfresh)
    as (_ & Hw & Hc & Hb).
  assert (Hdc' : getitem (per_row_table (true_csv self) pcol ms) "doc_class" = Ok dc).
  { rewrite <- Hdc. apply per_row_table_kept; try assumption. discriminate. }
  assert (Hqt' : getitem (per_row_table (true_csv self) pcol ms) "question_type" = Ok qt).
  { rewrite <- Hqt. apply per_row_table_kept; try assumption. discriminate. }
  split.
  - unfold group_by_doc_question. rewrite Hdc', Hqt'. reflexivity.
  - exists dc, qt, ms. repeat split; try assumption.
    apply group_by_ok; assumption.
Qed.

End AggregationOutcome.

(** ** Edges of the aggregations *)

Section AggregationEdges.

Lemma value_counts_index_nil (s : list cell) :
  (forall c, In c s -> c = CNaN) -> value_counts_index s = [].
Proof.
  intros H. destruct (value_counts_index_spec s) as (_ & Hin & _).
  destruct (value_counts_index s) as [| c l]; [reflexivity |].
  destruct (proj1 (Hin c) (or_introl eq_refl)) as [Hc Hna].
  elim Hna. now apply H.
Qed.

(** X16.  On a table without classes (no rows, or [doc_class] missing
    on every row) [calculate_metrics_by_doc_type] returns the table of
    its four columns without rows; it does not look for the metric
    columns, which may be absent. *)
Theorem by_doc_type_without_classes (df : DataFrame) (dc : list cell) :
  getitem df "doc_class" = Ok dc ->
  (forall c, In c dc -> c = CNaN) ->
  calculate_metrics_by_doc_type df
  = Ok {| columns := ["doc_class"; "wer_error"; "cer_error"; "bleu_score"];
          rows := [] |}.
Proof.
  intros Hdc Hna. unfold calculate_metrics_by_doc_type. rewrite Hdc. cbn [bind].
  rewrite (value_counts_index_nil dc Hna). reflexivity.
Qed.

(** X17.  On a table with at least one class and no [wer_error]
    column [calculate_metrics_by_doc_type] raises the [KeyError] of
    that label. *)
Theorem by_doc_type_missing_metric (df : DataFrame) (dc : list cell) (c : cell) :
  getitem df "doc_class" = Ok dc ->
  In c dc -> c <> CNaN ->
  ~ In "wer_error" (columns df) ->
  calculate_metrics_by_doc_type df = Raise (KeyError "wer_error").
Proof.
  intros Hdc Hin Hna Hw. unfold calculate_metrics_by_doc_type. rewrite Hdc. cbn [bind].
  destruct (value_counts_index_spec dc) as (_ & Hspec & _).
  destruct (value_counts_index dc) as [| c0 rest] eqn:E.
  - exfalso. apply (proj2 (Hspec c)). split; assumption.
  - cbn [by_doc_type_loop]. unfold class_mean at 1, where_eq. rewrite Hdc. cbn [bind].
    rewrite getitem_raises by exact Hw. reflexivity.
Qed.

Lemma sorted_unique (l l' : list key) :
  StronglySorted key_lt l -> StronglySorted key_lt l' ->
  (forall k, In k l <-> In k l') -> l = l'.
Proof.
  intros S. revert l'. induction S as [| h t S IH F]; intros l' S' Hin.
  - destruct l' as [| h' t']; [reflexivity |].
    destruct (proj2 (Hin h') (or_introl eq_refl)).
  - destruct S' as [| h' t' S' F'].
    + destruct (proj1 (Hin h) (or_introl eq_refl)).
    + rewrite Forall_forall in F, F'.
      assert (h = h') as <-.
      { destruct (proj1 (Hin h) (or_introl eq_refl)) as [E | Hh]; [congruence |].
        destruct (proj2 (Hin h') (or_introl eq_refl)) as [E | Hh']; [congruence |].
        exfalso. apply (@key_lt_irrefl h).
        eapply key_lt_trans; [apply F, Hh' | apply F', Hh]. }
      f_equal. apply IH; [exact S' |]. intros k. split; intros Hk.
      * destruct (proj1 (Hin k) (or_intror Hk)) as [<- | Hk']; [| exact Hk'].
        exfalso. exact (key_lt_irrefl (F h Hk)).
      * destruct (proj2 (Hin k) (or_intror Hk)) as [<- | Hk']; [| exact Hk'].
        exfalso. exact (key_lt_irrefl (F' h Hk)).
Qed.

Lemma group_by_row_keys (df out : DataFrame) (dc qt : list cell) :
  group_by_doc_question before_2_0 df = Ok out ->
  getitem df "doc_class" = Ok dc ->
  getitem df "question_type" = Ok qt ->
  row_keys out = map (fun k => [fst k; snd k]) (group_keys dc qt).
Proof.
  unfold group_by_doc_question. intros H Hdc Hqt. rewrite Hdc, Hqt in H. cbn [bind] in H.
  destruct (getitem df "wer_error") as [w |]; [| discriminate].
  destruct (getitem df "cer_error") as [c |]; [| discriminate].
  destruct (getitem df "bleu_score") as [b |]; [| discriminate].
  cbn [bind] in H. injection H as <-. unfold row_keys. cbn [rows].
  rewrite map_map. apply map_ext. intros k. reflexivity.
Qed.

(** X18.  On pandas before 2.0, where [group_by_doc_question] returns
    a table, which rows it returns, and in which order, depends only on
    which pairs (document class, question type) occur in the table: two
    tables with the same pairs, in whatever order and however often, get
    the same sequence of row keys. *)
Theorem group_by_keys_depend_on_pairs (df df' out out' : DataFrame)
    (dc qt dc' qt' : list cell) :
  group_by_doc_question before_2_0 df = Ok out ->
  group_by_doc_question before_2_0 df' = Ok out' ->
  getitem df "doc_class" = Ok dc ->
  getitem df "question_type" = Ok qt ->
  getitem df' "doc_class" = Ok dc' ->
  getitem df' "question_type" = Ok qt' ->
  (forall k, In k (combine dc qt) <-> In k (combine dc' qt')) ->
  row_keys out = row_keys out'.
Proof.
  intros H H' Hdc Hqt Hdc' Hqt' Hsame.
  rewrite (@group_by_row_keys df out dc qt H Hdc Hqt),
    (@group_by_row_keys df' out' dc' qt' H' Hdc' Hqt').
  f_equal.
  destruct (group_keys_spec dc qt) as (S & Hin).
  destruct (group_keys_spec dc' qt') as (S' & Hin').
  apply sorted_unique; try assumption.
  intros k. rewrite Hin, Hin', Hsame. tauto.
Qed.

End AggregationEdges.

(** ** The shape of the tables returned *)

Section Shapes.

Context {L : Libraries}.

Lemma from_columns_shape (n : nat) (cols : list (string * list cell)) (out : DataFrame) :
  from_columns n cols = Ok out -> columns out = map fst cols /\ rectangular out.
Proof.
  unfold from_columns. destruct (forallb _ cols); [| discriminate].
  intros H. injection H as <-. split; [reflexivity |].
  unfold rectangular. cbn [rows columns]. apply Forall_forall.
  intros r Hr. apply in_map_iff in Hr as (i & <- & _). now rewrite !length_map.
Qed.

(** X19.  On a rectangular reference table the table
    [calculate_metrics_by_id] returns is rectangular too: every row has
    one cell per column, four of them derived. *)
Theorem by_id_rectangular (self : MetricEvaluator) (out : DataFrame) :
  calculate_metrics_by_id self = Ok out ->
  rectangular (true_csv self) ->
  rectangular out
  /\ List.length (columns out)
     = List.length (filter (fun c => negb (String.eqb "answear_bbox" c))
                           (columns (true_csv self))) + 4.
Proof.
  intros H Hrect.
  apply calculate_metrics_by_id_inv in H as (ms & pcol & _ & Hms & _ & Hlen & ->).
  pose proof (@row_results_length _ self _ ms Hms) as Hm.
  assert (Hcols : List.length (columns (per_row_table (true_csv self) pcol ms))
                  = List.length (filter (fun c => negb (String.eqb "answear_bbox" c))
                                        (columns (true_csv self))) + 4).
  { unfold per_row_table, concat. cbn [columns]. now rewrite length_app. }
  split; [| exact Hcols].
  unfold rectangular. apply Forall_forall. intros x Hx.
  apply In_nth_error in Hx as [row Hx].
  destruct (@per_row_table_row_inv (true_csv self) pcol ms row x Hlen Hm Hx)
    as (r & pa & m & Hr & _ & _ & ->).
  rewrite Hcols, length_app. cbn [List.length metric_cells]. f_equal.
  rewrite <- without_labels. apply without_length; [| reflexivity].
  unfold rectangular in Hrect. rewrite Forall_forall in Hrect.
  apply Hrect. eapply nth_error_In. exact Hr.
Qed.

(** X20.  Whatever table they are given, the two aggregations return,
    when they return, a rectangular table.  The header of
    [calculate_metrics_by_doc_type] is fixed: the class and the three
    metrics.  The header of [group_by_doc_question], which returns on
    pandas before 2.0 only, is the class and the question type followed
    by those of the three metric labels whose column holds no text. *)
Theorem aggregations_shape (df out : DataFrame) :
  (calculate_metrics_by_doc_type df = Ok out ->
   columns out = ["doc_class"; "wer_error"; "cer_error"; "bleu_score"]
   /\ rectangular out)
  /\ (forall pandas, group_by_doc_question pandas df = Ok out ->
      pandas = before_2_0
      /\ rectangular out
      /\ exists averaged,
           columns out = ["doc_class"; "question_type"] ++ averaged
           /\ forall label,
                In label averaged
                <-> In label ["wer_error"; "cer_error"; "bleu_score"]
                    /\ exists col, getitem df label = Ok col /\ holds_text col = false).
Proof.
  split.
  - unfold calculate_metrics_by_doc_type. intros H.
    destruct (getitem df "doc_class") as [dc |]; [| discriminate]. cbn [bind] in H.
    destruct (by_doc_type_loop df _ [] [] []) as [[[wl cl] bl] |]; [| discriminate].
    cbn [bind] in H. apply from_columns_shape in H as [Hc Hr]. split; assumption.
  - unfold group_by_doc_question. intros pandas H.
    destruct (getitem df "doc_class") as [dc |]; [| discriminate].
    destruct (getitem df "question_type") as [qt |]; [| discriminate].
    cbn [bind] in H. destruct pandas; [| discriminate].
    destruct (getitem df "wer_error") as [w |] eqn:Ew; [| discriminate].
    destruct (getitem df "cer_error") as [c |] eqn:Ec; [| discriminate].
    destruct (getitem df "bleu_score") as [b |] eqn:Eb; [| discriminate].
    cbn [bind] in H. injection H as <-. split; [reflexivity |]. split.
    + unfold rectangular. cbn [rows columns]. apply Forall_forall.
      intros r Hr. apply in_map_iff in Hr as (k & <- & _).
      cbn [app List.length]. now rewrite !length_map.
    + cbn [columns].
      destruct (holds_text w) eqn:Hw, (holds_text c) eqn:Hc, (holds_text b) eqn:Hb;
        cbn [filter snd negb map fst];
        (eexists; split; [reflexivity |]; intros label; split;
         [ intros Hl; cbn in Hl;
           repeat (destruct Hl as [<- | Hl]; [split; [cbn; tauto | eauto] |]);
           contradiction
         | intros [Hl (col & Hcol & Hnum)]; cbn in Hl;
           destruct Hl as [<- | [<- | [<- | []]]];
           rewrite ?Ew, ?Ec, ?Eb in Hcol; injection Hcol as <-;
           try congruence; cbn; tauto ]).
Qed.

End Shapes.

(** ** The further properties on the sample data *)

Section FurtherOnSampleData.

Import Sample Examples MoreExamples.

Lemma evaluator_rectangular : rectangular (true_csv evaluator).
Proof. repeat constructor. Qed.

Lemma evaluator_fresh (label : string) :
  In label derived_labels -> ~ In label (columns (true_csv evaluator)).
Proof.
  intros H Hin. cbn in H, Hin.
  repeat (destruct H as [<- | H];
          [repeat (destruct Hin as [Hin | Hin]; [discriminate |]); exact Hin |]).
  exact H.
Qed.

Lemma per_row_computed : calculate_metrics_by_id evaluator = Ok per_row.
Proof. vm_compute. reflexivity. Qed.

Lemma by_id_first_error_sample :
  calculate_metrics_by_id undecodable = Raise SyntaxError.
Proof.
  apply (@by_id_first_error libraries undecodable 1 SyntaxError).
  - cbn. tauto.
  - cbn. lia.
  - intros r Hr. assert (r = 0) as -> by lia.
    apply returns_of_ok. vm_compute. exact I.
  - vm_compute. reflexivity.
Defined.

Lemma by_id_missing_bbox_sample :
  calculate_metrics_by_id no_bbox = Raise (KeyError "answear_bbox").
Proof.
  apply (@by_id_missing_bbox libraries no_bbox).
  cbn. intros [H | [H | H]]; [discriminate | discriminate | exact H].
Defined.

Lemma by_id_labels_sample :
  ~ In "answear_bbox" (columns per_row)
  /\ forall label,
       In label (columns per_row)
       <-> (In label (columns (true_csv evaluator)) /\ label <> "answear_bbox")
           \/ In label derived_labels.
Proof.
  apply (@by_id_labels libraries evaluator per_row). exact per_row_computed.
Defined.

Lemma row_error_rate_roles_sample :
  exists w c,
    wer (PList [PStr "hello world"]) (PList [PStr "hello word"]) = Ok w
    /\ cer (PList [PStr "hello world"]) (PList [PStr "hello word"]) = Ok c.
Proof.
  destruct (by_id_row evaluator 1) as [m |] eqn:E; [| vm_compute in E; discriminate].
  exists (wer_error m), (cer_error m).
  apply (@row_error_rate_roles libraries evaluator 1);
    [vm_compute; reflexivity .. | exact E].
Defined.

Lemma on_tables_without_rows_sample :
  calculate_metrics_general empty_pair = score (PList []) (PList [])
  /\ calculate_metrics_by_id empty_pair
     = Ok {| columns := ["answers"; "pred_answers"; "wer_error"; "cer_error"; "bleu_score"];
             rows := [] |}.
Proof.
  destruct (@on_tables_without_rows libraries empty_pair) as [Hg Hid].
  - reflexivity.
  - split; [exact Hg |]. apply Hid; cbn; tauto.
Defined.

(** On the sample data the metric routines of the instance refuse the
    two empty lists. *)
Example general_without_rows_fails :
  calculate_metrics_general empty_pair = Raise (ValueError empty_reference).
Proof. vm_compute. reflexivity. Qed.

Lemma general_pools_rows_sample :
  calculate_metrics_general evaluator
  = score (PList [PStr "cat"; PStr "dog"; PStr "hello world"; PStr "a b c"])
          (PList [PStr "cat"; PStr "dog"; PStr "hello word"; PStr "a b d"]).
Proof.
  apply (@general_pools_rows libraries evaluator
           [[PStr "cat"; PStr "dog"]; [PStr "hello world"]; [PStr "a b c"]]
           [[PStr "cat"; PStr "dog"]; [PStr "hello word"]; [PStr "a b d"]]);
    repeat constructor.
Defined.

Lemma general_reads_only_answers_sample :
  calculate_metrics_general single = calculate_metrics_general single_variant.
Proof.
  apply (@general_reads_only_answers libraries single single_variant);
    vm_compute; reflexivity.
Defined.

Lemma general_roles_sample :
  exists b,
    corpus_bleu {| hypotheses := PList [PStr "hello world"; PStr "cat"];
                   references := PList [PList [PStr "hello word"; PStr "cat"]] |}
    = Ok b.
Proof.
  destruct (calculate_metrics_general single) as [g |] eqn:E;
    [| vm_compute in E; discriminate].
  destruct (@general_roles libraries single g E) as (ta & pa & Hloop & _ & _ & Hb).
  vm_compute in Hloop. injection Hloop as <- <-.
  exists (bleu_score g). exact Hb.
Defined.

Lemma init_invariant_sample :
  read_file true_file = Ok (true_csv evaluator)
  /\ read_file prediction_file = Ok (pred_csv evaluator)
  /\ columns (true_csv evaluator) = columns (pred_csv evaluator)
  /\ len (true_csv evaluator) = len (pred_csv evaluator)
  /\ validate_data evaluator = Ok tt.
Proof.
  apply (@init_invariant libraries true_file prediction_file evaluator).
  vm_compute. reflexivity.
Defined.

Lemma by_id_keeps_columns_sample :
  getitem per_row "doc_class" = getitem (true_csv evaluator) "doc_class".
Proof.
  apply (@by_id_keeps_columns libraries evaluator per_row "doc_class").
  - exact per_row_computed.
  - exact evaluator_rectangular.
  - cbn. tauto.
  - discriminate.
  - cbn. intros [H | [H | [H | [H | H]]]]; try discriminate. exact H.
Defined.

Lemma by_id_derived_columns_sample :
  getitem per_row "pred_answers" = getitem (pred_csv evaluator) "answers".
Proof.
  destruct (@by_id_derived_columns libraries evaluator per_row)
    as (ms & _ & H & _).
  - exact per_row_computed.
  - exact evaluator_rectangular.
  - exact evaluator_fresh.
  - exact H.
Defined.

Lemma by_doc_type_after_by_id_sample :
  returns (calculate_metrics_by_doc_type per_row).
Proof.
  destruct (@by_doc_type_after_by_id libraries evaluator per_row)
    as (dc & ms & _ & _ & H).
  - exact per_row_computed.
  - exact evaluator_rectangular.
  - exact evaluator_fresh.
  - cbn. tauto.
  - eexists. exact H.
Defined.

Lemma group_by_after_by_id_sample :
  group_by_doc_question since_2_0 per_row = Raise (ValueError tuple_of_labels)
  /\ returns (group_by_doc_question before_2_0 per_row).
Proof.
  destruct (@group_by_after_by_id libraries evaluator per_row)
    as (Hnew & dc & qt & ms & _ & _ & _ & H).
  - exact per_row_computed.
  - exact evaluator_rectangular.
  - exact evaluator_fresh.
  - cbn. tauto.
  - cbn. tauto.
  - split; [exact Hnew | eexists; exact H].
Defined.

Lemma by_doc_type_without_classes_sample :
  calculate_metrics_by_doc_type unclassified
  = Ok {| columns := ["doc_class"; "wer_error"; "cer_error"; "bleu_score"];
          rows := [] |}.
Proof.
  apply (@by_doc_type_without_classes unclassified [CNaN; CNaN]).
  - reflexivity.
  - intros c [<- | [<- | []]]; reflexivity.
Defined.

Lemma by_doc_type_missing_metric_sample :
  calculate_metrics_by_doc_type classes_only = Raise (KeyError "wer_error").
Proof.
  apply (@by_doc_type_missing_metric classes_only
           [CStr "invoice"; CStr "receipt"] (CStr "invoice")).
  - reflexivity.
  - now left.
  - discriminate.
  - cbn. intros [H | H]; [discriminate | exact H].
Defined.

Lemma group_by_keys_depend_on_pairs_sample :
  row_keys (table_of (group_by_doc_question before_2_0 per_row))
  = row_keys (table_of (group_by_doc_question before_2_0 per_row_reversed)).
Proof.
  apply (@group_by_keys_depend_on_pairs per_row per_row_reversed _ _
           doc_classes question_types (rev doc_classes) (rev question_types));
    try (vm_compute; reflexivity).
  intros k. vm_compute. tauto.
Defined.

Lemma by_id_rectangular_sample :
  rectangular per_row /\ List.length (columns per_row) = 8.
Proof.
  apply (@by_id_rectangular libraries evaluator per_row).
  - exact per_row_computed.
  - exact evaluator_rectangular.
Defined.

Lemma aggregations_shape_sample :
  rectangular (table_of (calculate_metrics_by_doc_type per_row))
  /\ rectangular (table_of (group_by_doc_question before_2_0 per_row)).
Proof.
  split.
  - apply (proj1 (@aggregations_shape per_row _)). vm_compute. reflexivity.
  - apply (proj2 (@aggregations_shape per_row _) before_2_0). vm_compute. reflexivity.
Defined.

End FurtherOnSampleData.
